(** * Offline-first cache and synchronisation engine of the tour-plan client

    A shallow embedding of the client-side JavaScript and the properties of
    its specification:
    - [LocalStorage] : the class [LocalStorage] (js/storage.js), the Local
                       Store;
    - [APIClient]    : the class [APIClient] (js/api.js): the Remote Gateway
                       [fetchWithRetry], the read path [getUsers], the write
                       methods and the replay [processSyncQueue];
    - [WeekClock]    : [computeWeekStartIST] (js/utils.js) with the [Date]
                       built-ins it calls;
    - [Remote]       : the plans sheet as the functions [plans/set] and
                       [users/delete] (netlify/functions) keep it;
    - [StoreAccess]  : the readers and the maintenance methods of
                       [LocalStorage];
    - [Utils]        : [formatDateDisplay], [isValidPassword],
                       [sanitizeString] and [formatLocationList]
                       (js/utils.js);
    - [APIReads]     : the read paths [login], [getPlans] and
                       [getAdminOverride] of [APIClient];
    - [AuthManager]  : the class [AuthManager] (js/auth.js);
    - [PlansSheet]   : the plans sheet as the function [plans/get] reads it.

    How the code is read.
    - Stateful code is written in a state-and-exception monad over an
      explicit [World]; [try]/[catch] is [try_catch].  What the platform and
      the remote decide (whether the Web Storage would take a write, the
      clock and the random numbers, the answers to requests) is an [Env].
    - An [async] method runs to its end without another task in between, and
      the connectivity flag does not change while it runs.
    - Identifiers are resolved as the scripts declare them.  The script of
      the Local Store ends with [const localStorage = new LocalStorage()],
      so that everywhere, the methods of the class included, [localStorage]
      is the application's instance and not the Web Storage of the platform
      ([LocalStorage.localStorage]).
    - JavaScript objects used as maps ([users], [plans[weekId]], a user
      record, ...) are finite maps over their own properties.  Where the code
      tests a lookup by a user name for truthiness, the names every object
      inherits from [Object.prototype] are found as well ([member]).
      Assignments below such a name, which would reach the built-in
      objects, are not modelled: the week of a plan, and the user and the
      week of a custom location, are taken to be ordinary names
      ([ordinary]).
    - Values have the types of the data model: a plan is an array of strings,
      a user name a string, and so on. *)

From Stdlib Require Import ZArith Lia String Ascii List Bool DecimalString.
From stdpp Require Import base tactics option list strings gmap fin_maps.

Local Open Scope string_scope.
Local Open Scope Z_scope.
Local Open Scope list_scope.

(** ** JSON scalars and the data model of the cache document *)

(** Scalar JSON values stored in user records.  A property whose value is
    [undefined] is dropped by [JSON.stringify]; it is modelled by the absence
    of the key. *)
Inductive jval : Type :=
| JNull
| JBool (b : bool)
| JNum (n : Z)
| JStr (s : string).

#[global] Instance jval_eq_dec : EqDecision jval.
Proof. solve_decision. Defined.

(** JavaScript truthiness, as used by [if (x)] and [x || y]. *)
Definition truthy (v : jval) : bool :=
  match v with
  | JNull => false
  | JBool b => b
  | JNum n => negb (Z.eqb n 0)
  | JStr s => negb (String.eqb s "")
  end.

(** A user record [{password, isAdmin, ...}]: a JSON object with scalar
    fields, keyed by field name. *)
Abbreviation UserData := (gmap string jval).

(** [{ password, isAdmin }] as it is persisted: an [undefined] member does
    not survive serialisation. *)
Definition mkUserData (password isAdmin : option jval) : UserData :=
  let o := match isAdmin with Some v => <["isAdmin" := v]> ∅ | None => ∅ end in
  match password with Some p => <["password" := p]> o | None => o end.

Record AdminOverride : Type := mkAdminOverride {
  adminName : string;
  overrideWeekStart : string;
  ov_timestamp : string
}.

(** The [action] and [payload] of a queue item as one tagged union.  The last
    constructor stands for any action string the replay switch does not
    know. *)
Inductive Payload : Type :=
| user_update (name : string) (userData : UserData)
| user_delete (name : string)
| plan_update (weekStartId userName : string) (locations : list string)
| custom_location_add (userName weekStartId dayDate location : string)
| admin_override (adminName overrideWeekStart : string)
| admin_override_clear
| unknown_action (action : string).

Definition action (p : Payload) : string :=
  match p with
  | user_update _ _ => "user_update"
  | user_delete _ => "user_delete"
  | plan_update _ _ _ => "plan_update"
  | custom_location_add _ _ _ _ => "custom_location_add"
  | admin_override _ _ => "admin_override"
  | admin_override_clear => "admin_override_clear"
  | unknown_action a => a
  end.

(** [id] is the number [Date.now() + Math.random()]; the code only compares
    it with [===] and [!==]. *)
Record SyncQueueItem : Type := mkItem {
  itemId : Z;
  payload : Payload;
  timestamp : string;
  attempts : Z
}.

(** The cache document.  A top-level key can be missing (the code tests
    [if (!data.users)] and the like), hence the options; [adminOverride] is
    [null] or an object. *)
Record CacheDocument : Type := mkDoc {
  users : option (gmap string UserData);
  plans : option (gmap string (gmap string (list string)));
  customLocations : option (gmap string (gmap string (gmap string string)));
  adminOverride : option AdminOverride;
  syncQueue : option (list SyncQueueItem);
  lastSync : option string
}.

(** [{}], what [getData] yields when it reads nothing. *)
Definition emptyDocument : CacheDocument := mkDoc None None None None None None.

Definition set_users v (d : CacheDocument) :=
  mkDoc v (plans d) (customLocations d) (adminOverride d) (syncQueue d) (lastSync d).
Definition set_plans v (d : CacheDocument) :=
  mkDoc (users d) v (customLocations d) (adminOverride d) (syncQueue d) (lastSync d).
Definition set_customLocations v (d : CacheDocument) :=
  mkDoc (users d) (plans d) v (adminOverride d) (syncQueue d) (lastSync d).
Definition set_adminOverride v (d : CacheDocument) :=
  mkDoc (users d) (plans d) (customLocations d) v (syncQueue d) (lastSync d).
Definition set_syncQueue v (d : CacheDocument) :=
  mkDoc (users d) (plans d) (customLocations d) (adminOverride d) v (lastSync d).
Definition set_lastSync v (d : CacheDocument) :=
  mkDoc (users d) (plans d) (customLocations d) (adminOverride d) (syncQueue d) v.

(** ** The remote side as the client sees it *)

(** One element of the [users] array of a user-list response. *)
Record ServerUser : Type := mkServerUser {
  su_name : string;
  su_isAdmin : option jval
}.

(** A parsed response body; [r_ok] is the truthiness of its [ok] member. *)
Record Response : Type := mkResponse {
  r_ok : bool;
  r_message : option string;
  r_users : option (list ServerUser)
}.

(** The requests the modelled methods send (endpoint and JSON body). *)
Inductive Request : Type :=
| GET_users
| POST_plans_set (weekStart name : string) (locationsArray : list string)
| POST_users_add (name : string) (password : option jval) (isAdmin : jval)
| POST_users_delete (name : string)
| POST_custom_add (name weekStart dayDate location : string)
| POST_override (adminName overrideWeekStart : option string).

(** What one [fetch] can do: reject, answer with a non-2xx status (the body
    either is JSON, with or without a [message], or is not JSON), or answer
    2xx (the body is JSON or not). *)
Inductive FetchOutcome : Type :=
| NetworkFailure
| HttpError (status : Z) (body : option (option string))
| HttpSuccess (body : option Response).

(** The [Error] values [fetchWithRetry] throws. *)
Inductive Error : Type :=
| NetworkError
| ServerMessage (message : string)
| HttpStatus (status : Z)
| JsonSyntaxError.

(** Exceptions of the embedded code. *)
Inductive Exn : Type :=
| QuotaExceededError
| TypeError
| FetchError (e : Error).

(** ** Environment and world *)

(** What the platform decides: whether its Web Storage takes a document
    (its [setItem] throws otherwise), the values of
    [Date.now() + Math.random()] and of [new Date().toISOString()] at each
    reading of the clock, and how the remote answers. *)
Record Env (S : Type) : Type := mkEnv {
  accepts : CacheDocument -> bool;
  fresh_id : nat -> Z;
  now_iso : nat -> string;
  handle : S -> Request -> S * FetchOutcome
}.
Arguments accepts {S} _ _.
Arguments fresh_id {S} _ _.
Arguments now_iso {S} _ _.
Arguments handle {S} _ _ _.

(** The state the code runs against.  [storage] is what the Web Storage of
    the platform holds under [STORAGE_KEY].  [writes], [exchanges] and
    [sleeps] are histories kept for stating properties: the documents
    successfully persisted, the fetches made with their outcomes, and the
    back-off delays, oldest first. *)
Record World (S : Type) : Type := mkWorld {
  storage : option CacheDocument;
  writes : list CacheDocument;
  clock : nat;
  isOnline : bool;
  server : S;
  exchanges : list (Request * FetchOutcome);
  sleeps : list Z
}.
Arguments mkWorld {S} _ _ _ _ _ _ _.
Arguments storage {S} _.
Arguments writes {S} _.
Arguments clock {S} _.
Arguments isOnline {S} _.
Arguments server {S} _.
Arguments exchanges {S} _.
Arguments sleeps {S} _.

(** ** The monad *)

Inductive Result (A : Type) : Type :=
| Ok (a : A)
| Throw (e : Exn).
Arguments Ok {A} _.
Arguments Throw {A} _.

Definition M (S A : Type) : Type := World S -> Result A * World S.

Definition ret {S A} (a : A) : M S A := fun w => (Ok a, w).

Definition bind {S A B} (m : M S A) (k : A -> M S B) : M S B :=
  fun w => match m w with
           | (Ok a, w') => k a w'
           | (Throw e, w') => (Throw e, w')
           end.

Definition throw {S A} (e : Exn) : M S A := fun w => (Throw e, w).

(** [try { m } catch (e) { h e }]: the handler runs in the state the body
    left behind. *)
Definition try_catch {S A} (m : M S A) (h : Exn -> M S A) : M S A :=
  fun w => match m w with
           | (Ok a, w') => (Ok a, w')
           | (Throw e, w') => h e w'
           end.

Notation "x <- m ;; k" := (bind m (fun x => k))
  (at level 100, m at next level, right associativity).
Notation "m ;;; k" := (bind m (fun _ => k))
  (at level 100, right associativity).

(** [for (const x of l) body(x)] and [l.forEach(body)]. *)
Fixpoint for_each {S A} (l : list A) (body : A -> M S unit) : M S unit :=
  match l with
  | [] => ret tt
  | x :: l' => body x ;;; for_each l' body
  end.

(** The final state and the result of a run. *)
Definition exec {S A} (m : M S A) (w : World S) : World S := snd (m w).
Definition eval {S A} (m : M S A) (w : World S) : Result A := fst (m w).

(** ** Plain objects

    [obj[name]] on a plain object gives the object's own property or, when
    it has none of that name, the property of [Object.prototype]: for the
    names below a function (for [__proto__] the prototype itself), which is
    truthy and has no enumerable property of its own; for every other name
    [undefined]. *)
Definition Object_prototype : list string :=
  ["constructor"; "hasOwnProperty"; "isPrototypeOf"; "propertyIsEnumerable";
   "toLocaleString"; "toString"; "valueOf"; "__proto__";
   "__defineGetter__"; "__defineSetter__"; "__lookupGetter__"; "__lookupSetter__"].

Inductive Member (A : Type) : Type :=
| Own (a : A)
| Inherited
| Undefined.
Arguments Own {A} _.
Arguments Inherited {A}.
Arguments Undefined {A}.

Definition member {A} (obj : gmap string A) (name : string) : Member A :=
  match obj !! name with
  | Some a => Own a
  | None => if bool_decide (name ∈ Object_prototype) then Inherited else Undefined
  end.

(** ** Local Store: class [LocalStorage] *)

Module LocalStorage.
Section LocalStorage.
Context {S : Type} (env : Env S).

(** What the name [localStorage] can stand for: the Web Storage of the
    platform, which is a property of the global object, or the instance of
    the class that the script creates. *)
Inductive Denotation : Type :=
| WebStorage
| Instance.

(** [const localStorage = new LocalStorage()], the last statement of the
    script: a declaration of the global scope, which hides the property of
    the global object. *)
Definition localStorage : Denotation := Instance.

(** [localStorage.getItem(this.STORAGE_KEY)] and
    [localStorage.setItem(this.STORAGE_KEY, JSON.stringify(data))].  The Web
    Storage hands out what it holds, and either replaces it or throws and
    leaves it alone.  The class has no method [getItem] or [setItem]: on the
    instance the call throws a TypeError (in the constructor, where the
    declaration is not yet initialised, the reference itself throws; the
    handlers of [getData] and [saveData] do not look at the error). *)
Definition getItem : M S (option CacheDocument) :=
  match localStorage with
  | WebStorage => fun w => (Ok (storage w), w)
  | Instance => throw TypeError
  end.

Definition setItem (d : CacheDocument) : M S unit :=
  match localStorage with
  | WebStorage =>
      fun w =>
        if accepts env d
        then (Ok tt, mkWorld (Some d) (writes w ++ [d]) (clock w) (isOnline w)
                             (server w) (exchanges w) (sleeps w))
        else (Throw QuotaExceededError, w)
  | Instance => throw TypeError
  end.

(** One reading of the clock ([Date.now()], [new Date()]). *)
Definition tick : M S nat :=
  fun w => (Ok (clock w), mkWorld (storage w) (writes w) (Datatypes.S (clock w))
                                  (isOnline w) (server w) (exchanges w) (sleeps w)).

Definition seedUser (password : string) (isAdmin : bool) : UserData :=
  mkUserData (Some (JStr password)) (Some (JBool isAdmin)).

Definition defaultData : CacheDocument :=
  mkDoc (Some (<["Sahil Sharma" := seedUser "8371" false]>
              (<["Vijay Kumar" := seedUser "4926" false]>
              (<["Pawan Gupta" := seedUser "7149" false]>
              (<["Sunil Suri" := seedUser "3652" false]>
              (<["Sudhir Kumar" := seedUser "9211" true]> ∅))))))
        (Some ∅) (Some ∅) None (Some []) None.

Definition getData : M S CacheDocument :=
  try_catch (data <- getItem ;;
             ret (match data with Some d => d | None => emptyDocument end))
            (fun _ => ret emptyDocument).

Definition saveData (data : CacheDocument) : M S bool :=
  try_catch (setItem data ;;; ret true) (fun _ => ret false).

(** [Object.keys(existing).length === 0] *)
Definition no_keys (d : CacheDocument) : bool :=
  match users d, plans d, customLocations d, adminOverride d, syncQueue d, lastSync d with
  | None, None, None, None, None, None => true
  | _, _, _, _, _, _ => false
  end.

(** [{ ...defaultData, ...existing }] *)
Definition merge_defaults (existing : CacheDocument) : CacheDocument :=
  let keep {A} (e d : option A) := match e with Some _ => e | None => d end in
  mkDoc (keep (users existing) (users defaultData))
        (keep (plans existing) (plans defaultData))
        (keep (customLocations existing) (customLocations defaultData))
        (adminOverride existing)
        (keep (syncQueue existing) (syncQueue defaultData))
        (lastSync existing).

Definition initializeStorage : M S unit :=
  existing <- getData ;;
  if no_keys existing
  then saveData defaultData ;;; ret tt
  else saveData (merge_defaults existing) ;;; ret tt.

Definition getUsers : M S (gmap string UserData) :=
  data <- getData ;;
  ret (match users data with Some u => u | None => ∅ end).

Definition addToSyncQueue (p : Payload) : M S unit :=
  data <- getData ;;
  let queue := match syncQueue data with Some q => q | None => [] end in
  t1 <- tick ;;
  t2 <- tick ;;
  let item := mkItem (fresh_id env t1) p (now_iso env t2) 0 in
  saveData (set_syncQueue (Some (queue ++ [item])) data) ;;;
  ret tt.

Definition setUser (name : string) (userData : UserData) : M S unit :=
  data <- getData ;;
  let us := match users data with Some u => u | None => ∅ end in
  saveData (set_users (Some (<[name := userData]> us)) data) ;;;
  addToSyncQueue (user_update name userData).

(** [if (data.plans[weekId][name]) delete data.plans[weekId][name]]: a
    stored plan is an array, which is truthy. *)
Definition drop_plan (name : string) (week : gmap string (list string)) :
    gmap string (list string) :=
  match week !! name with
  | Some _ => delete name week
  | None => week
  end.

Definition removeUser (name : string) : M S unit :=
  data <- getData ;;
  let data1 := match users data with
               | Some u => set_users (Some (delete name u)) data
               | None => data
               end in
  let data2 := match plans data1 with
               | Some p => set_plans (Some (drop_plan name <$> p)) data1
               | None => data1
               end in
  let data3 := match customLocations data2 with
               | Some c => match c !! name with
                           | Some _ => set_customLocations (Some (delete name c)) data2
                           | None => data2
                           end
               | None => data2
               end in
  saveData data3 ;;;
  addToSyncQueue (user_delete name).

Definition setPlan (weekStartId userName : string) (locations : list string) : M S unit :=
  data <- getData ;;
  let ps := match plans data with Some p => p | None => ∅ end in
  let week := match ps !! weekStartId with Some wk => wk | None => ∅ end in
  saveData (set_plans (Some (<[weekStartId := <[userName := locations]> week]> ps)) data) ;;;
  addToSyncQueue (plan_update weekStartId userName locations).

Definition addCustomLocation (userName weekStartId dayDate location : string) : M S unit :=
  data <- getData ;;
  let cs := match customLocations data with Some c => c | None => ∅ end in
  let cu := match cs !! userName with Some c => c | None => ∅ end in
  let cw := match cu !! weekStartId with Some c => c | None => ∅ end in
  saveData (set_customLocations
              (Some (<[userName := <[weekStartId := <[dayDate := location]> cw]> cu]> cs))
              data) ;;;
  addToSyncQueue (custom_location_add userName weekStartId dayDate location).

Definition setAdminOverride (adminName overrideWeekStart : string) : M S unit :=
  data <- getData ;;
  t <- tick ;;
  saveData (set_adminOverride
              (Some (mkAdminOverride adminName overrideWeekStart (now_iso env t))) data) ;;;
  addToSyncQueue (admin_override adminName overrideWeekStart).

Definition clearAdminOverride : M S unit :=
  data <- getData ;;
  saveData (set_adminOverride None data) ;;;
  addToSyncQueue admin_override_clear.

Definition getSyncQueue : M S (list SyncQueueItem) :=
  data <- getData ;;
  ret (match syncQueue data with Some q => q | None => [] end).

Definition removeSyncItem (id : Z) : M S unit :=
  data <- getData ;;
  match syncQueue data with
  | Some q =>
      saveData (set_syncQueue
                  (Some (filter (fun item => itemId item ≠ id) q)) data) ;;;
      ret tt
  | None => ret tt
  end.

(** [data.syncQueue.find(item => item.id === itemId)] followed by the
    assignment to the found item: the first match gets the new count. *)
Fixpoint set_attempts (id : Z) (n : Z) (q : list SyncQueueItem) :
    option (list SyncQueueItem) :=
  match q with
  | [] => None
  | item :: q' =>
      if decide (itemId item = id)
      then Some (mkItem (itemId item) (payload item) (timestamp item) n :: q')
      else match set_attempts id n q' with
           | Some q'' => Some (item :: q'')
           | None => None
           end
  end.

Definition updateSyncAttempts (id : Z) (n : Z) : M S unit :=
  data <- getData ;;
  match syncQueue data with
  | Some q =>
      match set_attempts id n q with
      | Some q' => saveData (set_syncQueue (Some q') data) ;;; ret tt
      | None => ret tt
      end
  | None => ret tt
  end.

Definition setLastSync : M S unit :=
  t <- tick ;;
  data <- getData ;;
  saveData (set_lastSync (Some (now_iso env t)) data) ;;;
  ret tt.

End LocalStorage.
End LocalStorage.

(** ** Remote Gateway and Sync Engine: class [APIClient] *)

Module APIClient.
Section APIClient.
Context {S : Type} (env : Env S).

(** One [fetch(url, options)]: the remote moves on and the exchange is
    recorded. *)
Definition fetch (req : Request) : M S FetchOutcome :=
  fun w =>
    let (s', o) := handle env (server w) req in
    (Ok o, mkWorld (storage w) (writes w) (clock w) (isOnline w) s'
                   (exchanges w ++ [(req, o)]) (sleeps w)).

(** [await new Promise(resolve => setTimeout(resolve, delay))] *)
Definition wait (delay : Z) : M S unit :=
  fun w => (Ok tt, mkWorld (storage w) (writes w) (clock w) (isOnline w)
                           (server w) (exchanges w) (sleeps w ++ [delay])).

Definition online : M S bool := fun w => (Ok (isOnline w), w).

(** [errorData.message || `HTTP ${response.status}`], where [errorData] is
    [{}] when the body is not JSON. *)
Definition error_of (status : Z) (body : option (option string)) : Error :=
  match body with
  | Some (Some message) =>
      if String.eqb message "" then HttpStatus status else ServerMessage message
  | _ => HttpStatus status
  end.

(** The [try] block of [fetchWithRetry]. *)
Definition fetch_once (req : Request) : M S Response :=
  response <- fetch req ;;
  match response with
  | NetworkFailure => throw (FetchError NetworkError)
  | HttpError status body => throw (FetchError (error_of status body))
  | HttpSuccess (Some json) => ret json
  | HttpSuccess None => throw (FetchError JsonSyntaxError)
  end.

(** The loop [for (attempt = 0; attempt < maxRetries; attempt++)], by
    recursion on the iterations left.  [None] is the [undefined] the
    function returns when the loop ends without returning or throwing. *)
Fixpoint fetchLoop (left attempt maxRetries : nat) (req : Request) :
    M S (option Response) :=
  match left with
  | O => ret None
  | Datatypes.S left' =>
      r <- try_catch (json <- fetch_once req ;; ret (Some json))
                     (fun error =>
                        if Nat.eqb attempt (maxRetries - 1)
                        then throw error
                        else wait (2 ^ Z.of_nat attempt * 1000) ;;; ret None) ;;
      match r with
      | Some json => ret (Some json)
      | None => fetchLoop left' (Datatypes.S attempt) maxRetries req
      end
  end.

Definition fetchWithRetry (req : Request) (maxRetries : nat) : M S (option Response) :=
  fetchLoop maxRetries 0 maxRetries req.

(** The callers all use the default [maxRetries = 3]. *)
Definition call (req : Request) : M S (option Response) := fetchWithRetry req 3.

(** [{ ok: true, users: Object.keys(localStorage.getUsers()).map(...) }];
    the order of the keys is not modelled. *)
Definition localUsersResponse : M S Response :=
  us <- LocalStorage.getUsers ;;
  ret (mkResponse true None
         (Some (map (fun '(name, u) =>
                       mkServerUser name
                         (Some (match u !! "isAdmin" with
                                | Some v => if truthy v then v else JBool false
                                | None => JBool false
                                end)))
                    (map_to_list us)))).

(** [{ ...current, isAdmin: user.isAdmin }] as persisted. *)
Definition mergeUser (current : UserData) (isAdmin : option jval) : UserData :=
  match isAdmin with
  | Some v => <["isAdmin" := v]> current
  | None => delete "isAdmin" current
  end.

(** [if (currentUsers[user.name]) localStorage.setUser(user.name,
    { ...currentUsers[user.name], isAdmin: user.isAdmin })]: the spread of an
    inherited property copies nothing. *)
Definition mergeUsers (users : list ServerUser) : M S unit :=
  currentUsers <- LocalStorage.getUsers ;;
  for_each users (fun user =>
    match member currentUsers (su_name user) with
    | Own current =>
        LocalStorage.setUser env (su_name user) (mergeUser current (su_isAdmin user))
    | Inherited =>
        LocalStorage.setUser env (su_name user) (mergeUser ∅ (su_isAdmin user))
    | Undefined => ret tt
    end).

Definition getUsers : M S Response :=
  on <- online ;;
  if negb on then localUsersResponse
  else
    try_catch
      (response <- call GET_users ;;
       match response with
       | None => throw TypeError
       | Some response =>
           match r_users response with
           | Some users => mergeUsers users
           | None => ret tt
           end ;;;
           ret response
       end)
      (fun _ => localUsersResponse).

(** The common shape of the write methods after their local write. *)
Definition send (req : Request) (message : string) : M S (option Response) :=
  on <- online ;;
  if negb on then ret (Some (mkResponse true (Some message) None))
  else try_catch (call req)
                 (fun _ => ret (Some (mkResponse true (Some message) None))).

Definition setPlan (weekStartId userName : string) (locations : list string) :
    M S (option Response) :=
  LocalStorage.setPlan env weekStartId userName locations ;;;
  send (POST_plans_set weekStartId userName locations)
       "Saved locally. Will sync when online.".

(** [addUser(name, password, isAdmin = false)] *)
Definition addUser (name : string) (password isAdmin : option jval) :
    M S (option Response) :=
  let isAdmin := match isAdmin with Some v => v | None => JBool false end in
  LocalStorage.setUser env name (mkUserData password (Some isAdmin)) ;;;
  send (POST_users_add name password isAdmin)
       "User added locally. Will sync when online.".

Definition deleteUser (name : string) : M S (option Response) :=
  LocalStorage.removeUser env name ;;;
  send (POST_users_delete name) "User removed locally. Will sync when online.".

Definition addCustomLocation (userName weekStartId dayDate location : string) :
    M S (option Response) :=
  LocalStorage.addCustomLocation env userName weekStartId dayDate location ;;;
  send (POST_custom_add userName weekStartId dayDate location)
       "Custom location added locally. Will sync when online.".

Definition setAdminOverride (adminName overrideWeekStart : string) :
    M S (option Response) :=
  LocalStorage.setAdminOverride env adminName overrideWeekStart ;;;
  send (POST_override (Some adminName) (Some overrideWeekStart))
       "Override set locally. Will sync when online.".

Definition clearAdminOverride : M S (option Response) :=
  LocalStorage.clearAdminOverride env ;;;
  send (POST_override None None) "Override cleared locally. Will sync when online.".

(** [success = response.ok]; reading [ok] of [undefined] throws. *)
Definition ok_of (response : option Response) : M S bool :=
  match response with
  | Some r => ret (r_ok r)
  | None => throw TypeError
  end.

(** The [switch (item.action)]. *)
Definition dispatch (item : SyncQueueItem) : M S bool :=
  match payload item with
  | user_update name userData =>
      r <- addUser name (userData !! "password") (userData !! "isAdmin") ;; ok_of r
  | user_delete name =>
      r <- deleteUser name ;; ok_of r
  | plan_update weekStartId userName locations =>
      r <- setPlan weekStartId userName locations ;; ok_of r
  | custom_location_add userName weekStartId dayDate location =>
      r <- addCustomLocation userName weekStartId dayDate location ;; ok_of r
  | admin_override adminName overrideWeekStart =>
      r <- setAdminOverride adminName overrideWeekStart ;; ok_of r
  | admin_override_clear =>
      r <- clearAdminOverride ;; ok_of r
  | unknown_action _ => ret true
  end.

(** The body of the [for (const item of queue)] loop.  [item] is the element
    of the snapshot read before the loop, so [attempts item] is the count at
    the start of the pass. *)
Definition processItem (item : SyncQueueItem) : M S unit :=
  try_catch
    (success <- dispatch item ;;
     if success
     then LocalStorage.removeSyncItem env (itemId item)
     else
       LocalStorage.updateSyncAttempts env (itemId item) (attempts item + 1) ;;;
       if 5 <=? attempts item
       then LocalStorage.removeSyncItem env (itemId item)
       else ret tt)
    (fun _ => LocalStorage.updateSyncAttempts env (itemId item) (attempts item + 1)).

Definition processSyncQueue : M S unit :=
  on <- online ;;
  if negb on then ret tt
  else
    queue <- LocalStorage.getSyncQueue ;;
    match queue with
    | [] => ret tt
    | _ => for_each queue processItem ;;; LocalStorage.setLastSync env
    end.

End APIClient.
End APIClient.

(** ** Week Clock: [computeWeekStartIST] of js/utils.js *)

Module WeekClock.

(** *** The [Date] built-ins, after ECMA-262 (Dates and Times)

    A time value is a number of milliseconds since the epoch; [None] stands
    for [NaN], the time value of an Invalid Date, and for a [NaN] number. *)

Definition msPerDay : Z := 86400000.

Definition TimeClip (t : Z) : option Z :=
  if Z.abs t <=? 8640000000000000 then Some t else None.

Definition Day (t : Z) : Z := t / msPerDay.
Definition TimeWithinDay (t : Z) : Z := t mod msPerDay.

Definition DaysInYear (y : Z) : Z :=
  if negb (y mod 4 =? 0) then 365
  else if negb (y mod 100 =? 0) then 366
  else if negb (y mod 400 =? 0) then 365
  else 366.

Definition DayFromYear (y : Z) : Z :=
  365 * (y - 1970) + (y - 1969) / 4 - (y - 1901) / 100 + (y - 1601) / 400.

(** The largest [y] with [DayFromYear y <= d]: an estimate from the mean
    length of a year, corrected by at most one. *)
Definition YearFromDay (d : Z) : Z :=
  let y := 1970 + d * 400 / 146097 in
  if d <? DayFromYear y then y - 1
  else if DayFromYear (y + 1) <=? d then y + 1
  else y.

Definition InLeapYear (y : Z) : Z := DaysInYear y - 365.

(** The day within the year on which month [m] (0 = January) starts. *)
Definition MonthStart (m leap : Z) : Z :=
  if m <=? 0 then 0
  else if m =? 1 then 31
  else if m =? 2 then 59 + leap
  else if m =? 3 then 90 + leap
  else if m =? 4 then 120 + leap
  else if m =? 5 then 151 + leap
  else if m =? 6 then 181 + leap
  else if m =? 7 then 212 + leap
  else if m =? 8 then 243 + leap
  else if m =? 9 then 273 + leap
  else if m =? 10 then 304 + leap
  else 334 + leap.

Definition MonthFromDayWithinYear (dayWithinYear leap : Z) : Z :=
  if dayWithinYear <? 31 then 0
  else if dayWithinYear <? 59 + leap then 1
  else if dayWithinYear <? 90 + leap then 2
  else if dayWithinYear <? 120 + leap then 3
  else if dayWithinYear <? 151 + leap then 4
  else if dayWithinYear <? 181 + leap then 5
  else if dayWithinYear <? 212 + leap then 6
  else if dayWithinYear <? 243 + leap then 7
  else if dayWithinYear <? 273 + leap then 8
  else if dayWithinYear <? 304 + leap then 9
  else if dayWithinYear <? 334 + leap then 10
  else 11.

Definition YearFromTime (t : Z) : Z := YearFromDay (Day t).
Definition DayWithinYear (t : Z) : Z := Day t - DayFromYear (YearFromTime t).
Definition MonthFromTime (t : Z) : Z :=
  MonthFromDayWithinYear (DayWithinYear t) (InLeapYear (YearFromTime t)).
Definition DateFromTime (t : Z) : Z :=
  DayWithinYear t - MonthStart (MonthFromTime t) (InLeapYear (YearFromTime t)) + 1.
Definition WeekDay (t : Z) : Z := (Day t + 4) mod 7.

Definition MakeDay (year month date : Z) : Z :=
  let ym := year + month / 12 in
  let mn := month mod 12 in
  DayFromYear ym + MonthStart mn (InLeapYear ym) + date - 1.

Definition MakeDate (day time : Z) : Z := day * msPerDay + time.

(** [new Date(value)] for a number, and the methods the code calls. *)
Definition new_Date (value : option Z) : option Z :=
  match value with Some t => TimeClip t | None => None end.

Definition getUTCDay (d : option Z) : option Z := option_map WeekDay d.
Definition getUTCDate (d : option Z) : option Z := option_map DateFromTime d.
Definition getUTCMonth (d : option Z) : option Z := option_map MonthFromTime d.
Definition getUTCFullYear (d : option Z) : option Z := option_map YearFromTime d.

(** [d.setUTCDate(dt)], giving the new time value of [d]. *)
Definition setUTCDate (d : option Z) (dt : option Z) : option Z :=
  match d, dt with
  | Some t, Some dt =>
      TimeClip (MakeDate (MakeDay (YearFromTime t) (MonthFromTime t) dt) (TimeWithinDay t))
  | _, _ => None
  end.

(** Number addition with [NaN]. *)
Definition plus (a b : option Z) : option Z :=
  match a, b with Some x, Some y => Some (x + y) | _, _ => None end.

(** *** Strings *)

(** [String(n)] for an integer or [NaN]. *)
Definition ToString (n : option Z) : string :=
  match n with
  | Some z => DecimalString.NilZero.string_of_int (Z.to_int z)
  | None => "NaN"
  end.

(** [s.padStart(2, '0')] *)
Definition padStart2 (s : string) : string :=
  match String.length s with
  | O => "00"
  | Datatypes.S O => "0" +:+ s
  | _ => s
  end.

(** [s.slice(-2)] *)
Definition slice_last2 (s : string) : string :=
  String.substring (String.length s - 2) 2 s.

Definition monthNames : list string :=
  ["Jan"; "Feb"; "Mar"; "Apr"; "May"; "Jun"; "Jul"; "Aug"; "Sep"; "Oct"; "Nov"; "Dec"].

(** [`${monthNames[i]}`]: an index that is [NaN] or out of range gives
    [undefined]. *)
Definition monthName (i : option Z) : string :=
  match i with
  | Some z => if z <? 0 then "undefined"
              else match monthNames !! Z.to_nat z with Some s => s | None => "undefined" end
  | None => "undefined"
  end.

(** *** Parsing

    [new Date(s)] for a string in the date-time format of ECMA-262 whose time
    part is the [T00:00:00.000Z] the code appends: a year [YYYY] (or an
    expanded year, a sign and six digits, [-000000] excluded), optionally
    followed by [-MM] and [-DD].  A day of the month from 01 to 31 is taken
    in every month: one the month does not have is carried over into the
    next month by [MakeDay], as V8 does.  What an engine does with any other
    string is left to it by the standard; such strings are taken to give an
    Invalid Date, which is what the engines in use do with a year that has
    not four digits. *)

Definition digit_val (c : ascii) : option Z :=
  let n := Z.of_N (N_of_ascii c) in
  if (48 <=? n) && (n <=? 57) then Some (n - 48) else None.

Fixpoint read_digits (n : nat) (acc : Z) (s : string) : option (Z * string) :=
  match n with
  | O => Some (acc, s)
  | Datatypes.S n' =>
      match s with
      | String c s' =>
          match digit_val c with
          | Some v => read_digits n' (10 * acc + v) s'
          | None => None
          end
      | EmptyString => None
      end
  end.

Definition read_year (s : string) : option (Z * string) :=
  match s with
  | String c s' =>
      if Ascii.eqb c "+" then read_digits 6 0 s'
      else if Ascii.eqb c "-" then
        match read_digits 6 0 s' with
        | Some (y, rest) => if y =? 0 then None else Some (- y, rest)
        | None => None
        end
      else read_digits 4 0 s
  | EmptyString => None
  end.

(** The rest of [s] after a leading hyphen. *)
Definition strip_hyphen (s : string) : option string :=
  match s with
  | String c s' => if Ascii.eqb c "-" then Some s' else None
  | EmptyString => None
  end.

(** The length of a month; [month] is counted from 1 here. *)
Definition DaysInMonth (year month : Z) : Z :=
  if month =? 12 then 31
  else MonthStart month (InLeapYear year) - MonthStart (month - 1) (InLeapYear year).

(** The end of the parse: the time part and the ranges of the fields. *)
Definition parse_end (year month date : Z) (rest : string) : option Z :=
  if String.eqb rest "T00:00:00.000Z"
     && (1 <=? month) && (month <=? 12)
     && (1 <=? date) && (date <=? 31)
  then TimeClip (MakeDate (MakeDay year (month - 1) date) 0)
  else None.

Definition Date_parse (s : string) : option Z :=
  match read_year s with
  | Some (year, s1) =>
      match strip_hyphen s1 with
      | Some s1' =>
          match read_digits 2 0 s1' with
          | Some (month, s2) =>
              match strip_hyphen s2 with
              | Some s2' =>
                  match read_digits 2 0 s2' with
                  | Some (date, s3) => parse_end year month date s3
                  | None => None
                  end
              | None => parse_end year month 1 s2
              end
          | None => None
          end
      | None => parse_end year 1 1 s1
      end
  | None => None
  end.

(** *** The function *)

Record WeekInfo : Type := mkWeekInfo {
  weekStartId : string;
  headers : list string;
  dayDates : list string
}.

Definition IST_OFFSET : Z := 19800000.

(** [date] after the override, if any, has replaced it. *)
Definition effectiveDate (date : option Z) (overrideDateISO : option string) : option Z :=
  match overrideDateISO with
  | Some iso => if String.eqb iso "" then date else Date_parse (iso +:+ "T00:00:00.000Z")
  | None => date
  end.

Definition istDateOf (date : option Z) : option Z :=
  new_Date (plus date (Some IST_OFFSET)).

(** [dayOfWeek === 0 ? -6 : -(dayOfWeek - 1)] *)
Definition mondayOffsetOf (dayOfWeek : option Z) : option Z :=
  match dayOfWeek with
  | Some dow => Some (if dow =? 0 then -6 else - (dow - 1))
  | None => None
  end.

Definition mondayDateOf (istDate : option Z) : option Z :=
  setUTCDate istDate (plus (getUTCDate istDate) (mondayOffsetOf (getUTCDay istDate))).

Definition header (currentDay : option Z) : string :=
  padStart2 (ToString (getUTCDate currentDay)) +:+ "/"
  +:+ monthName (getUTCMonth currentDay) +:+ "/"
  +:+ slice_last2 (ToString (getUTCFullYear currentDay)).

Definition isoDate (currentDay : option Z) : string :=
  ToString (getUTCFullYear currentDay) +:+ "-"
  +:+ padStart2 (ToString (plus (getUTCMonth currentDay) (Some 1))) +:+ "-"
  +:+ padStart2 (ToString (getUTCDate currentDay)).

Definition computeWeekStartIST (date : option Z) (overrideDateISO : option string) : WeekInfo :=
  let date := effectiveDate date overrideDateISO in
  let istDate := istDateOf date in
  let mondayDate := mondayDateOf istDate in
  let year := ToString (getUTCFullYear mondayDate) in
  let month := padStart2 (ToString (plus (getUTCMonth mondayDate) (Some 1))) in
  let day := padStart2 (ToString (getUTCDate mondayDate)) in
  let currentDay (i : nat) :=
    setUTCDate mondayDate (plus (getUTCDate mondayDate) (Some (Z.of_nat i))) in
  mkWeekInfo (year +:+ month +:+ day)
             (map (fun i => header (currentDay i)) (seq 0 7))
             (map (fun i => isoDate (currentDay i)) (seq 0 7)).

(** The week identifier made from the Monday. *)
Definition weekIdOf (mondayDate : option Z) : string :=
  ToString (getUTCFullYear mondayDate)
  +:+ padStart2 (ToString (plus (getUTCMonth mondayDate) (Some 1)))
  +:+ padStart2 (ToString (getUTCDate mondayDate)).

(** Checks of the printed and parsed fields, for bounded enumeration. *)
Definition year_reads_back (y : Z) : bool :=
  match read_year (ToString (Some y)) with
  | Some (v, EmptyString) => v =? y
  | _ => false
  end.

Definition field_reads_back (v : Z) : bool :=
  match read_digits 2 0 (padStart2 (ToString (Some v))) with
  | Some (v', EmptyString) => v' =? v
  | _ => false
  end.

Definition Z_range (lo n : Z) : list Z :=
  map (fun i => lo + Z.of_nat i) (seq 0 (Z.to_nat n)).

(** The Monday the week of [now] starts on, as a time value. *)
Definition mondayOf (now : Z) : option Z := mondayDateOf (istDateOf (Some now)).

(** [computeWeek(now, computeWeek(now).dayDates[0])] *)
Definition roundTrip (now : Z) : WeekInfo :=
  computeWeekStartIST (Some now)
    (head (dayDates (computeWeekStartIST (Some now) None))).

End WeekClock.

(** ** Observations on worlds, used to state the properties *)

Section Observations.
Context {S : Type}.

(** The document the Web Storage of the platform holds. *)
Definition doc (w : World S) : CacheDocument :=
  match storage w with Some d => d | None => emptyDocument end.

Definition queue_of (w : World S) : list SyncQueueItem :=
  match syncQueue (doc w) with Some q => q | None => [] end.

Definition userRecord (d : CacheDocument) (name : string) : option UserData :=
  match users d with Some u => u !! name | None => None end.



(** The names of the stored users. *)
Definition userNames (d : CacheDocument) : gset string :=
  match users d with Some u => dom u | None => ∅ end.



(** The Web Storage takes no document (quota exhausted). *)
Definition full (env : Env S) : Prop := ∀ d, accepts env d = false.

(** The world after [n] readings of the clock. *)
Definition advance (n : nat) (w : World S) : World S :=
  mkWorld (storage w) (writes w) (n + clock w)%nat (isOnline w)
          (server w) (exchanges w) (sleeps w).

(** The world once the handler of an [online] or [offline] event has
    assigned [this.isOnline]. *)
Definition connected (on : bool) (w : World S) : World S :=
  mkWorld (storage w) (writes w) (clock w) on (server w) (exchanges w) (sleeps w).

(** The local mutating operations. *)
Inductive Mutation : Type :=
| SetUser (name : string) (userData : UserData)
| RemoveUser (name : string)
| SetPlan (weekStartId userName : string) (locations : list string)
| AddCustomLocation (userName weekStartId dayDate location : string)
| SetAdminOverride (adminName overrideWeekStart : string)
| ClearAdminOverride.

Definition run_mutation (env : Env S) (mu : Mutation) : M S unit :=
  match mu with
  | SetUser name userData => LocalStorage.setUser env name userData
  | RemoveUser name => LocalStorage.removeUser env name
  | SetPlan weekStartId userName locations =>
      LocalStorage.setPlan env weekStartId userName locations
  | AddCustomLocation userName weekStartId dayDate location =>
      LocalStorage.addCustomLocation env userName weekStartId dayDate location
  | SetAdminOverride adminName overrideWeekStart =>
      LocalStorage.setAdminOverride env adminName overrideWeekStart
  | ClearAdminOverride => LocalStorage.clearAdminOverride env
  end.

(** The names under which a mutation files its data are ordinary ones: the
    week of a plan, and the user and the week of a custom location, are no
    names that every object inherits.  (Below such a name the assignment of
    the mutation would reach a built-in object.) *)
Definition ordinary (mu : Mutation) : Prop :=
  match mu with
  | SetPlan weekStartId _ _ => weekStartId ∉ Object_prototype
  | AddCustomLocation userName weekStartId _ _ =>
      (userName ∉ Object_prototype) ∧ (weekStartId ∉ Object_prototype)
  | _ => True
  end.

(** The readings of the clock a mutation makes: two for the queue item, and
    one more for the time stamp of an override. *)
Definition ticks (mu : Mutation) : nat :=
  match mu with
  | SetAdminOverride _ _ => 3%nat
  | _ => 2%nat
  end.

(** [w'] differs from [w] at most in the stored queue (and in the history of
    persisted documents). *)
Definition queue_only (w w' : World S) : Prop :=
  users (doc w') = users (doc w) ∧ plans (doc w') = plans (doc w)
  ∧ customLocations (doc w') = customLocations (doc w)
  ∧ adminOverride (doc w') = adminOverride (doc w)
  ∧ lastSync (doc w') = lastSync (doc w)
  ∧ clock w' = clock w ∧ isOnline w' = isOnline w ∧ server w' = server w
  ∧ exchanges w' = exchanges w ∧ sleeps w' = sleeps w.

(** A run reports a failure to its caller when it ends in an exception. *)
Definition reports_failure {A} (m : M S A) (w : World S) : Prop :=
  ∃ e, eval m w = Throw e.


(** [w'] has in the Web Storage what [w] has, and the same history of
    persisted documents. *)
Definition store_kept (w w' : World S) : Prop :=
  storage w' = storage w ∧ writes w' = writes w.

(** A computation that leaves the Web Storage alone, whatever its result. *)
Definition keeps_store {A} (m : M S A) : Prop := ∀ w, store_kept w (exec m w).

End Observations.

Section RemoteObservations.
Context {S : Type}.

(** The world after one [fetch] of [req]. *)
Definition after_fetch (env : Env S) (req : Request) (w : World S) : World S :=
  mkWorld (storage w) (writes w) (clock w) (isOnline w)
          (fst (handle env (server w) req))
          (exchanges w ++ [(req, snd (handle env (server w) req))]) (sleeps w).

Definition after_wait (delay : Z) (w : World S) : World S :=
  mkWorld (storage w) (writes w) (clock w) (isOnline w)
          (server w) (exchanges w) (sleeps w ++ [delay]).

End RemoteObservations.

(** ** Specification predicates and concrete scenarios *)


Module Scenario.

Definition okBody : Response := mkResponse true None None.

Definition ids (n : nat) : Z := 1000 + Z.of_nat n.
Definition stamps (n : nat) : string := "2025-08-11T04:00:00.000Z".

(** Remotes without state: one that answers every request with [{ok:true}],
    one that answers 200 with [{ok:false}], one that cannot be reached. *)
Definition env_accepting : Env unit :=
  mkEnv unit (fun _ => true) ids stamps (fun s _ => (s, HttpSuccess (Some okBody))).
Definition env_unreachable : Env unit :=
  mkEnv unit (fun _ => true) ids stamps (fun s _ => (s, NetworkFailure)).

(** A storage whose quota is exhausted. *)
Definition env_quota : Env unit :=
  mkEnv unit (fun _ => false) ids stamps (fun s _ => (s, HttpSuccess (Some okBody))).

Definition planX : list string := ["X"; ""; ""; ""; ""; ""; ""].
Definition planY : list string := ["Y"; ""; ""; ""; ""; ""; ""].


Definition world_of (d : CacheDocument) (on : bool) : World unit :=
  mkWorld (Some d) [] 0 on tt [] [].

(** A browser that has nothing stored under the key, online or offline. *)
Definition w_fresh (on : bool) : World unit := mkWorld None [] 0 on tt [] [].

(** A Web Storage that holds the default document, and the same with
    [item1] in the queue. *)
Definition w_initial : World unit := world_of LocalStorage.defaultData true.

(** Two users with plans and custom locations. *)
Definition doc_two_users : CacheDocument :=
  mkDoc (Some (<["A" := LocalStorage.seedUser "1234" false]>
              (<["B" := LocalStorage.seedUser "5678" true]> ∅)))
        (Some (<["20250811" := <["A" := planX]> (<["B" := planY]> ∅)]>
              (<["20250818" := <["A" := planY]> ∅]> ∅)))
        (Some (<["A" := <["20250811" := <["2025-08-12" := "Depot"]> ∅]> ∅]>
              (<["B" := <["20250811" := <["2025-08-13" := "Yard"]> ∅]> ∅]> ∅)))
        None (Some []) None.
Definition w_two_users : World unit := world_of doc_two_users true.

End Scenario.

Module Gateway.

(** A remote that answers the first request it gets with 409 and a JSON
    body, and every later one with [{ok:true}]; its state counts the
    requests. *)
Definition conflict_once (s : nat) (req : Request) : nat * FetchOutcome :=
  (Datatypes.S s,
   match s with
   | O => HttpError 409 (Some (Some "User already exists"))
   | _ => HttpSuccess (Some Scenario.okBody)
   end).

Definition env_conflict_once : Env nat :=
  mkEnv nat (fun _ => true) Scenario.ids Scenario.stamps conflict_once.

(** A remote that answers every request with 400 and a JSON body. *)
Definition env_invalid : Env unit :=
  mkEnv unit (fun _ => true) Scenario.ids Scenario.stamps
        (fun s _ => (s, HttpError 400 (Some (Some "locationsArray must have exactly 7 entries")))).

Definition w_start : World nat :=
  mkWorld (Some LocalStorage.defaultData) [] 0 true 0%nat [] [].

Definition add_user_request : Request :=
  POST_users_add "Sahil Sharma" (Some (JStr "8371")) (JBool false).

(** The remote answers every request [req] with a non-2xx status and a JSON
    body, whatever its state. *)
Definition rejecting {S} (env : Env S) (req : Request) : Prop :=
  ∀ s, ∃ status body, snd (handle env s req) = HttpError status (Some body).

(** The back-off delays after attempts [first], ..., [first + n - 1]. *)
Definition backoff (first n : nat) : list Z :=
  map (fun attempt => 2 ^ Z.of_nat attempt * 1000) (seq first n).

End Gateway.

(** *** The remote plan store *)


(** The plans sheet of the datastore, as the functions [plans/set] and
    [users/delete] (netlify/functions) read and write it.  Failures of the
    sheet backend (the 500 answers) and the other sheets are left out: the
    other endpoints do not touch the plans sheet and are taken to answer
    [{ok:true}]. *)
Module Remote.

Record PlanRow : Type := mkRow {
  week_start : string;
  row_name : string;
  days : list string
}.

(** [row.week_start === weekStart && row.name === name] *)
Definition matches (weekStart name : string) (row : PlanRow) : bool :=
  String.eqb (week_start row) weekStart && String.eqb (row_name row) name.

(** [locationsArray[i] || ''] *)
Definition day_of (locationsArray : list string) (i : nat) : string :=
  match locationsArray !! i with Some s => s | None => "" end.

(** [Object.assign(existingRow, planData); existingRow.save()], where
    [existingRow] is the first matching row. *)
Fixpoint assign_first (weekStart name : string) (planData : PlanRow)
    (rows : list PlanRow) : list PlanRow :=
  match rows with
  | [] => []
  | row :: rows' =>
      if matches weekStart name row then planData :: rows'
      else row :: assign_first weekStart name planData rows'
  end.

Definition plans_set (rows : list PlanRow) (weekStart name : string)
    (locationsArray : list string) : list PlanRow * FetchOutcome :=
  if String.eqb weekStart "" || String.eqb name ""
  then (rows, HttpError 400 (Some (Some "weekStart, name, and locationsArray are required")))
  else if negb (Nat.eqb (length locationsArray) 7)
  then (rows, HttpError 400 (Some (Some "locationsArray must have exactly 7 entries")))
  else
    let planData := mkRow weekStart name (map (day_of locationsArray) (seq 0 7)) in
    (match find (matches weekStart name) rows with
     | Some _ => assign_first weekStart name planData rows
     | None => rows ++ [planData]
     end,
     HttpSuccess (Some (mkResponse true (Some "Plan saved successfully") None))).

Definition users_delete (rows : list PlanRow) (name : string) :
    list PlanRow * FetchOutcome :=
  if String.eqb name ""
  then (rows, HttpError 400 (Some (Some "User name is required")))
  else (filter (fun row => row_name row ≠ name) rows,
        HttpSuccess (Some (mkResponse true
          (Some ("User " +:+ name +:+ " and all associated data deleted successfully"))
          None))).

Definition handler (rows : list PlanRow) (req : Request) : list PlanRow * FetchOutcome :=
  match req with
  | POST_plans_set weekStart name locationsArray => plans_set rows weekStart name locationsArray
  | POST_users_delete name => users_delete rows name
  | _ => (rows, HttpSuccess (Some (mkResponse true None None)))
  end.

(** The plan the sheet holds for a week and a user: the first matching
    row. *)
Definition plan_of (rows : list PlanRow) (weekStart name : string) : option (list string) :=
  match find (matches weekStart name) rows with
  | Some row => Some (days row)
  | None => None
  end.

Definition env : Env (list PlanRow) :=
  mkEnv (list PlanRow) (fun _ => true) Scenario.ids Scenario.stamps handler.

(** A Web Storage that holds plan Y of user "A" for the week 20250811 and,
    in the queue, the updates to plan X and then to plan Y. *)
Definition itemX : SyncQueueItem :=
  mkItem 11 (plan_update "20250811" "A" Scenario.planX) "2025-08-11T03:00:00.000Z" 0.
Definition itemY : SyncQueueItem :=
  mkItem 12 (plan_update "20250811" "A" Scenario.planY) "2025-08-11T03:05:00.000Z" 0.

Definition w_two_updates : World (list PlanRow) :=
  mkWorld (Some (set_syncQueue (Some [itemX; itemY])
                   (set_plans (Some (<["20250811" := <["A" := Scenario.planY]> ∅]> ∅))
                      LocalStorage.defaultData)))
          [] 0 true [] [] [].

End Remote.

(** The users of a server's list whose name every object inherits: those
    for which the read-path merge finds a truthy [currentUsers[user.name]] in
    an empty object. *)
Definition inherited (users : list ServerUser) : list ServerUser :=
  filter (fun user => su_name user ∈ Object_prototype) users.

Module UserList.

(** A remote whose user list is [{name:"A", isAdmin:true}] and a user "C"
    the client has never stored; and one that also lists a user named
    [toString]. *)
Definition listed : list ServerUser :=
  [mkServerUser "A" (Some (JBool true)); mkServerUser "C" (Some (JBool false))].

Definition env : Env unit :=
  mkEnv unit (fun _ => true) Scenario.ids Scenario.stamps
        (fun s req =>
           (s, match req with
               | GET_users => HttpSuccess (Some (mkResponse true None (Some listed)))
               | _ => HttpSuccess (Some Scenario.okBody)
               end)).

Definition listed_inherited : list ServerUser :=
  listed ++ [mkServerUser "toString" (Some (JBool true))].

Definition env_inherited : Env unit :=
  mkEnv unit (fun _ => true) Scenario.ids Scenario.stamps
        (fun s req =>
           (s, match req with
               | GET_users => HttpSuccess (Some (mkResponse true None (Some listed_inherited)))
               | _ => HttpSuccess (Some Scenario.okBody)
               end)).

End UserList.

(** The remote gives no 2xx answer with a JSON body to [req], whatever its
    state: every attempt fails. *)
Definition failing {S} (env : Env S) (req : Request) : Prop :=
  ∀ s json, snd (handle env s req) ≠ HttpSuccess (Some json).

(** The items of a queue that carry the id [id]. *)
Definition with_id (id : Z) (q : list SyncQueueItem) : list SyncQueueItem :=
  filter (fun item => itemId item = id) q.

(** ** Local Store: the readers and the maintenance methods of [LocalStorage] *)

Module StoreAccess.
Section StoreAccess.
Context {S : Type} (env : Env S).

(** [localStorage.removeItem(this.STORAGE_KEY)]: after the call the Web
    Storage holds nothing under the key; the class has no method
    [removeItem], so on the instance the call throws a TypeError. *)
Definition removeItem : M S unit :=
  match LocalStorage.localStorage with
  | LocalStorage.WebStorage =>
      fun w => (Ok tt, mkWorld None (writes w) (clock w) (isOnline w)
                               (server w) (exchanges w) (sleeps w))
  | LocalStorage.Instance => throw TypeError
  end.

(** [data.plans[weekStartId] || {}]: there is no guard on [data.plans], so
    reading a week of a document without the key throws. *)
Definition getPlansForWeek (weekStartId : string) : M S (gmap string (list string)) :=
  data <- LocalStorage.getData ;;
  match plans data with
  | Some p => ret (match p !! weekStartId with Some week => week | None => ∅ end)
  | None => throw TypeError
  end.

(** [data.customLocations[userName] || {}], unguarded in the same way. *)
Definition getCustomLocations (userName : string) : M S (gmap string (gmap string string)) :=
  data <- LocalStorage.getData ;;
  match customLocations data with
  | Some c => ret (match c !! userName with Some cu => cu | None => ∅ end)
  | None => throw TypeError
  end.

Definition getAdminOverride : M S (option AdminOverride) :=
  data <- LocalStorage.getData ;;
  ret (adminOverride data).

Definition getLastSync : M S (option string) :=
  data <- LocalStorage.getData ;;
  ret (lastSync data).

Definition clearAll : M S bool :=
  try_catch (removeItem ;;; LocalStorage.initializeStorage env ;;; ret true)
            (fun _ => ret false).

Definition exportData : M S CacheDocument := LocalStorage.getData.

Definition importData (data : CacheDocument) : M S bool :=
  try_catch (LocalStorage.saveData env data ;;; ret true) (fun _ => ret false).

End StoreAccess.
End StoreAccess.

(** The same queue but for the attempt counts. *)
Definition same_items (q q' : list SyncQueueItem) : Prop :=
  map itemId q' = map itemId q ∧ map payload q' = map payload q
  ∧ map timestamp q' = map timestamp q.

(** ** Helpers of js/utils.js *)

Module Utils.
Import WeekClock.

(** *** [formatDateDisplay]

    The getters [getDate], [getMonth] and [getFullYear] read the local time
    [LocalTime(t) = t + LocalTZA(t, true)] of ECMA-262; the offset of the
    time zone the browser runs in is a parameter. *)
Section LocalTime.
Context (LocalTZA : Z → Z).

Definition LocalTime (date : option Z) : option Z :=
  option_map (fun t => t + LocalTZA t) date.

Definition getDate (date : option Z) : option Z := option_map DateFromTime (LocalTime date).
Definition getMonth (date : option Z) : option Z := option_map MonthFromTime (LocalTime date).
Definition getFullYear (date : option Z) : option Z := option_map YearFromTime (LocalTime date).

Definition formatDateDisplay (date : option Z) : string :=
  let day := padStart2 (ToString (getDate date)) in
  let month := monthName (getMonth date) in
  let year := slice_last2 (ToString (getFullYear date)) in
  day +:+ "/" +:+ month +:+ "/" +:+ year.

End LocalTime.

(** *** [isValidPassword]: [/^[0-9]{4}$/.test(password)] *)

Definition isDigit (c : ascii) : bool :=
  let n := Z.of_N (N_of_ascii c) in (48 <=? n) && (n <=? 57).

Definition isValidPassword (password : string) : bool :=
  match password with
  | String a (String b (String c (String d EmptyString))) =>
      isDigit a && isDigit b && isDigit c && isDigit d
  | _ => false
  end.

(** *** [sanitizeString]

    [str.replace(re, match => escape[match])], where the global pattern
    [re] is the class of the five characters less-than, greater-than,
    ampersand, double quote and apostrophe: every character of the class is
    replaced by its entity, the others are kept. *)

Definition escape (c : ascii) : string :=
  if Ascii.eqb c "<" then "&lt;"
  else if Ascii.eqb c ">" then "&gt;"
  else if Ascii.eqb c "&" then "&amp;"
  else if Ascii.eqb c "034" then "&quot;"
  else if Ascii.eqb c "'" then "&#x27;"
  else String c EmptyString.

Fixpoint sanitizeString (str : string) : string :=
  match str with
  | EmptyString => EmptyString
  | String c rest => escape c +:+ sanitizeString rest
  end.

(** The characters of the class. *)
Definition markup (c : ascii) : bool :=
  Ascii.eqb c "<" || Ascii.eqb c ">" || Ascii.eqb c "&" || Ascii.eqb c "034"
  || Ascii.eqb c "'".

(** The characters that open or close a tag or an attribute value. *)
Definition delimiter (c : ascii) : bool :=
  Ascii.eqb c "<" || Ascii.eqb c ">" || Ascii.eqb c "034" || Ascii.eqb c "'".

(** *** [formatLocationList]: [locations.join(separator)] *)

(** The line feed of ['\n'] or the tabulator of ['\t']. *)
Definition separator_char (format : string) : ascii :=
  if String.eqb format "vertical" then "010"%char else "009"%char.

Definition separator (format : string) : string :=
  String (separator_char format) EmptyString.

Definition formatLocationList (locations : list string) (format : string) : string :=
  String.concat (separator format) locations.

(** The characters of a string. *)
Fixpoint chars (s : string) : list ascii :=
  match s with
  | EmptyString => []
  | String c rest => c :: chars rest
  end.

End Utils.

(** ** Statements about the week *)

Module WeekSpec.
Import WeekClock.

(** The instants for which the shifted date, the Monday before it and the
    seven days after the Monday are all valid time values. *)
Definition in_range (now : Z) : Prop :=
  Z.abs (now + IST_OFFSET) <= 8640000000000000 - 7 * msPerDay.

(** The number of the Monday-based week the instant falls in, in the +5:30
    calendar (1 January 1970 was a Thursday). *)
Definition weekNumber (now : Z) : Z := (Day (now + IST_OFFSET) + 3) / 7.

(** The position of the instant's day in its week, Monday being 0. *)
Definition dayIndex (now : Z) : nat :=
  Z.to_nat ((WeekDay (now + IST_OFFSET) + 6) mod 7).

End WeekSpec.

(** ** The read paths of [APIClient] *)

(** An object of plans in a response body, as [Object.entries] lists it; the
    value of an entry is an array or a falsy value ([None]). *)
Abbreviation PlanEntries := (list (string * option (list string))).

(** The [override] member of a response: the object the function [override]
    answers with or the locally stored override. *)
Record OverrideBody : Type := mkOverrideBody {
  ob_adminName : option string;
  ob_overrideWeekStart : option string;
  ob_timestamp : option string
}.

(** A parsed body of the endpoints that are read: [rp_ok] is the truthiness
    of [ok]; a member that is missing or [null] is [None]. *)
Record Reply : Type := mkReply {
  rp_ok : bool;
  rp_message : option string;
  rp_isAdmin : option jval;
  rp_plansForCurrentWeek : option PlanEntries;
  rp_plans : option PlanEntries;
  rp_password : option jval;
  rp_override : option OverrideBody
}.

Inductive Query : Type :=
| POST_login (name password : string)
| POST_plans_get (weekStart : string)
| GET_override.

Inductive QueryOutcome : Type :=
| QueryFailure
| QueryError (status : Z) (body : option (option string))
| QueryAnswer (body : option Reply).

(** What the platform and the remote decide for the read paths: the answers
    to the queries and the time value of [new Date()] at each reading of the
    clock.  The exchange history of the world keeps the requests of the write
    methods only; a query shows in the state of the remote. *)
Record ReadEnv (S : Type) : Type := mkReadEnv {
  answer : S → Query → S * QueryOutcome;
  now_ms : nat → Z
}.
Arguments answer {S} _ _ _.
Arguments now_ms {S} _ _.

(** The loop of [fetchWithRetry] over any body of its [try] block. *)
Fixpoint retryLoop {S A} (left attempt maxRetries : nat) (once : M S A) : M S (option A) :=
  match left with
  | O => ret None
  | Datatypes.S left' =>
      r <- try_catch (json <- once ;; ret (Some json))
                     (fun error =>
                        if Nat.eqb attempt (maxRetries - 1)
                        then throw error
                        else APIClient.wait (2 ^ Z.of_nat attempt * 1000) ;;; ret None) ;;
      match r with
      | Some json => ret (Some json)
      | None => retryLoop left' (Datatypes.S attempt) maxRetries once
      end
  end.

(** [x || false] and [x || text] *)
Definition or_false (v : option jval) : jval :=
  match v with
  | Some v => if truthy v then v else JBool false
  | None => JBool false
  end.

Definition or_text (s : option string) (text : string) : string :=
  match s with
  | Some s => if String.eqb s "" then text else s
  | None => text
  end.

(** [new Error(message)]: the value the gateway also makes from the message
    of a server. *)
Definition new_Error (message : string) : Exn := FetchError (ServerMessage message).

Module APIReads.
Section APIReads.
Context {S : Type} (env : Env S) (renv : ReadEnv S).

Definition query (q : Query) : M S QueryOutcome :=
  fun w =>
    let (s', o) := answer renv (server w) q in
    (Ok o, mkWorld (storage w) (writes w) (clock w) (isOnline w) s'
                   (exchanges w) (sleeps w)).

Definition query_once (q : Query) : M S Reply :=
  response <- query q ;;
  match response with
  | QueryFailure => throw (FetchError NetworkError)
  | QueryError status body => throw (FetchError (APIClient.error_of status body))
  | QueryAnswer (Some json) => ret json
  | QueryAnswer None => throw (FetchError JsonSyntaxError)
  end.

(** [fetchWithRetry(url, options)] with the default [maxRetries = 3]. *)
Definition ask (q : Query) : M S (option Reply) := retryLoop 3 0 3 (query_once q).

(** [computeWeekStartIST()]: the week of [new Date()]. *)
Definition currentWeek : M S WeekClock.WeekInfo :=
  t <- LocalStorage.tick ;;
  ret (WeekClock.computeWeekStartIST (Some (now_ms renv t)) None).

Definition getLocalPlansForCurrentWeek : M S (gmap string (list string)) :=
  weekInfo <- currentWeek ;;
  StoreAccess.getPlansForWeek (WeekClock.weekStartId weekInfo).

(** The [forEach] over [Object.entries(plans)]: an entry whose value is
    truthy is written to the local store. *)
Definition adoptPlans (weekStartId : string) (entries : PlanEntries) : M S unit :=
  for_each entries (fun entry =>
    match snd entry with
    | Some userPlans => LocalStorage.setPlan env weekStartId (fst entry) userPlans
    | None => ret tt
    end).

(** A locally stored object of plans as a response carries it; the order of
    the keys is not modelled. *)
Definition entries_of (week : gmap string (list string)) : PlanEntries :=
  map (fun entry => (fst entry, Some (snd entry))) (map_to_list week).

Definition invalidLogin : Reply :=
  mkReply false (Some "Invalid name or password") None None None None None.

Definition localLogin (localUser : UserData) (plans : gmap string (list string)) : Reply :=
  mkReply true None (Some (or_false (localUser !! "isAdmin")))
          (Some (entries_of plans)) None None None.

(** [if (!localUser || localUser.password !== password)], [localUser]
    being [localUsers[name]]: an inherited property is truthy and has no
    [password]. *)
Definition login (name password : string) : M S Reply :=
  localUsers <- LocalStorage.getUsers ;;
  match member localUsers name with
  | Undefined => ret invalidLogin
  | Inherited => ret invalidLogin
  | Own localUser =>
      if negb (bool_decide (localUser !! "password" = Some (JStr password)))
      then ret invalidLogin
      else
        on <- APIClient.online ;;
        served <-
          (if on
           then
             try_catch
               (response <- ask (POST_login name password) ;;
                match response with
                | None => throw TypeError
                | Some response =>
                    match rp_ok response, rp_plansForCurrentWeek response with
                    | true, Some entries =>
                        weekInfo <- currentWeek ;;
                        _ <- StoreAccess.getPlansForWeek (WeekClock.weekStartId weekInfo) ;;
                        adoptPlans (WeekClock.weekStartId weekInfo) entries
                    | _, _ => ret tt
                    end ;;;
                    ret (Some response)
                end)
               (fun _ => ret None)
           else ret None) ;;
        match served with
        | Some response => ret response
        | None =>
            plans <- getLocalPlansForCurrentWeek ;;
            ret (localLogin localUser plans)
        end
  end.

Definition plansReply (localPlans : gmap string (list string)) : Reply :=
  mkReply true None None None (Some (entries_of localPlans)) None None.

Definition getPlans (weekStartId : string) : M S Reply :=
  localPlans <- StoreAccess.getPlansForWeek weekStartId ;;
  on <- APIClient.online ;;
  if negb on then ret (plansReply localPlans)
  else
    try_catch
      (response <- ask (POST_plans_get weekStartId) ;;
       match response with
       | None => throw TypeError
       | Some response =>
           match rp_ok response, rp_plans response with
           | true, Some entries => adoptPlans weekStartId entries
           | _, _ => ret tt
           end ;;;
           ret response
       end)
      (fun _ => ret (plansReply localPlans)).

Definition overrideReply (localOverride : option AdminOverride) : Reply :=
  mkReply true None None None None None
    (option_map (fun o => mkOverrideBody (Some (adminName o)) (Some (overrideWeekStart o))
                                         (Some (ov_timestamp o)))
                localOverride).

(** [response.override.adminName && response.override.overrideWeekStart] *)
Definition named_override (o : OverrideBody) : option (string * string) :=
  match ob_adminName o, ob_overrideWeekStart o with
  | Some a, Some wk =>
      if String.eqb a "" || String.eqb wk "" then None else Some (a, wk)
  | _, _ => None
  end.

Definition getAdminOverride : M S Reply :=
  localOverride <- StoreAccess.getAdminOverride ;;
  on <- APIClient.online ;;
  if negb on then ret (overrideReply localOverride)
  else
    try_catch
      (response <- ask GET_override ;;
       match response with
       | None => throw TypeError
       | Some response =>
           match rp_ok response, rp_override response with
           | true, Some o =>
               match named_override o with
               | Some (a, wk) => LocalStorage.setAdminOverride env a wk
               | None => LocalStorage.clearAdminOverride env
               end
           | _, _ => ret tt
           end ;;;
           ret response
       end)
      (fun _ => ret (overrideReply localOverride)).

End APIReads.
End APIReads.

(** ** Authentication: class [AuthManager] (js/auth.js)

    The manager keeps who is logged in; the session storage of the tab
    outlives it.  The listeners are kept as the list of the states they were
    notified with: they are taken not to throw and not to touch the state
    modelled here.  [sessionStorage] is taken to accept its two small
    entries. *)

Module AuthManager.

(** What a listener is called with. *)
Record AuthState : Type := mkAuthState {
  st_isLoggedIn : bool;
  st_currentUser : option string;
  st_isAdmin : jval
}.

Record Auth : Type := mkAuth {
  currentUser : option string;
  isLoggedIn : bool;
  isAdmin : jval;
  session : gmap string string;
  notified : list AuthState
}.

(** [new AuthManager()] in a tab with the session storage [session]. *)
Definition constructor (session : gmap string string) : Auth :=
  mkAuth None false (JBool false) session [].

Definition notifyListeners (a : Auth) : Auth :=
  mkAuth (currentUser a) (isLoggedIn a) (isAdmin a) (session a)
         (notified a ++ [mkAuthState (isLoggedIn a) (currentUser a) (isAdmin a)]).

(** [String(v)] *)
Definition String_of (v : jval) : string :=
  match v with
  | JNull => "null"
  | JBool true => "true"
  | JBool false => "false"
  | JNum n => WeekClock.ToString (Some n)
  | JStr s => s
  end.

Definition logout (a : Auth) : Auth :=
  notifyListeners
    (mkAuth None false (JBool false)
            (delete "isAdmin" (delete "currentUser" (session a))) (notified a)).

Definition checkAuthState (a : Auth) : bool * Auth :=
  match session a !! "currentUser" with
  | Some storedUser =>
      if String.eqb storedUser "" then (false, a)
      else (true,
            mkAuth (Some storedUser) true
                   (JBool (bool_decide (session a !! "isAdmin" = Some "true")))
                   (session a) (notified a))
  | None => (false, a)
  end.

(** [this.isLoggedIn && this.isAdmin], as its callers test it. *)
Definition hasAdminAccess (a : Auth) : bool := isLoggedIn a && truthy (isAdmin a).

Definition canAccessUserData (a : Auth) (targetUser : string) : bool :=
  if negb (isLoggedIn a) then false
  else if truthy (isAdmin a) then true
  else bool_decide (currentUser a = Some targetUser).

Inductive LoginResult : Type :=
| LoginSuccess (isAdmin : jval) (plans : PlanEntries)
| LoginFailure (message : string).

Section AuthManager.
Context {S : Type} (env : Env S) (renv : ReadEnv S).

(** The messages of the exceptions the engine makes itself are its own. *)
Context (engine_message : Exn → string).

Definition message_of (e : Exn) : string :=
  match e with
  | FetchError (ServerMessage message) => message
  | FetchError (HttpStatus status) => "HTTP " +:+ WeekClock.ToString (Some status)
  | _ => engine_message e
  end.

(** The manager after the assignments and the two [sessionStorage.setItem]
    of a successful login. *)
Definition logged_in (a : Auth) (name : string) (admin : jval) : Auth :=
  mkAuth (Some name) true admin
         (<["isAdmin" := String_of admin]> (<["currentUser" := name]> (session a)))
         (notified a).

Definition login (a : Auth) (name password : string) : M S (LoginResult * Auth) :=
  try_catch
    (if String.eqb name "" || String.eqb password ""
     then throw (new_Error "Name and password are required")
     else if negb (Utils.isValidPassword password)
     then throw (new_Error "Password must be 4 digits")
     else
       response <- APIReads.login env renv name password ;;
       if negb (rp_ok response)
       then throw (new_Error (or_text (rp_message response) "Login failed"))
       else
         let admin := or_false (rp_isAdmin response) in
         ret (LoginSuccess admin
                (match rp_plansForCurrentWeek response with Some e => e | None => [] end),
              notifyListeners (logged_in a name admin)))
    (fun error =>
       ret (LoginFailure (or_text (Some (message_of error)) "Login failed"), a)).

(** [addUser(name, password, isAdmin = false)]; the result is the message of
    [{ success: true, message }]. *)
Definition addUser (a : Auth) (name password : string) (isAdmin : option jval) : M S string :=
  if negb (hasAdminAccess a) then throw (new_Error "Admin access required")
  else if String.eqb name "" || String.eqb password ""
  then throw (new_Error "Name and password are required")
  else if negb (Utils.isValidPassword password)
  then throw (new_Error "Password must be 4 digits")
  else
    users <- LocalStorage.getUsers ;;
    match member users name with
    | Own _ | Inherited => throw (new_Error "User already exists")
    | Undefined =>
        try_catch
          (response <- APIClient.addUser env name (Some (JStr password)) isAdmin ;;
           match response with
           | None => throw TypeError
           | Some response =>
               if negb (r_ok response)
               then throw (new_Error (or_text (r_message response) "Failed to add user"))
               else ret (or_text (r_message response) "User added successfully")
           end)
          (fun error => throw error)
    end.

Definition removeUser (a : Auth) (name : string) : M S string :=
  if negb (hasAdminAccess a) then throw (new_Error "Admin access required")
  else if String.eqb name "" then throw (new_Error "User name is required")
  else if bool_decide (currentUser a = Some name)
  then throw (new_Error "Cannot delete currently logged in user")
  else
    try_catch
      (response <- APIClient.deleteUser env name ;;
       match response with
       | None => throw TypeError
       | Some response =>
           if negb (r_ok response)
           then throw (new_Error (or_text (r_message response) "Failed to remove user"))
           else ret (or_text (r_message response) "User removed successfully")
       end)
      (fun error => throw error).

End AuthManager.
End AuthManager.

(** ** Statements about the read paths *)

Section ReadObservations.
Context {S : Type}.

(** The world after one query. *)
Definition after_query (renv : ReadEnv S) (q : Query) (w : World S) : World S :=
  mkWorld (storage w) (writes w) (clock w) (isOnline w)
          (fst (answer renv (server w) q)) (exchanges w) (sleeps w).

End ReadObservations.

(** *** Scenarios for the read paths *)

Module ReadScenario.

(** 13 August 2025, 12:00 UTC, at every reading of the clock. *)
Definition noon (n : nat) : Z := 1755086400000.

Definition okReply : Reply := mkReply true None None None None None None.

(** A server that refuses every login with 401 and answers every other
    query with [{ok: true}]. *)
Definition refusing_logins : ReadEnv unit :=
  mkReadEnv unit
    (fun s q => (s, match q with
                    | POST_login _ _ =>
                        QueryError 401 (Some (Some "Invalid name or password"))
                    | _ => QueryAnswer (Some okReply)
                    end))
    noon.

(** A server that answers every query with [{ok: true}]. *)
Definition okay : ReadEnv unit :=
  mkReadEnv unit (fun s q => (s, QueryAnswer (Some okReply))) noon.

(** A server on which "B" has set an override for the week of 18 August
    2025. *)
Definition overrideOfB : OverrideBody :=
  mkOverrideBody (Some "B") (Some "2025-08-18") (Some "2025-08-11T03:00:00.000Z").

Definition serving_override : ReadEnv unit :=
  mkReadEnv unit
    (fun s q => (s, match q with
                    | GET_override =>
                        QueryAnswer (Some (mkReply true None None None None None
                                                   (Some overrideOfB)))
                    | _ => QueryAnswer (Some okReply)
                    end))
    noon.

(** The session storage of a tab in which "A" is the current user, without
    the admin mark. *)
Definition session_of_A : gmap string string := <["currentUser" := "A"]> ∅.

End ReadScenario.

(** ** The plans sheet as the function [plans/get] reads it

    As for [plans/set] in [Remote], the sheet backend is taken not to fail,
    and a sheet that is missing counts as one without rows. *)

Module PlansSheet.
Import Remote.





(** No two rows are for the same week and user. *)
Definition unique (rows : list PlanRow) : Prop :=
  NoDup ((fun row => (week_start row, row_name row)) <$> rows).

End PlansSheet.

(** * Properties *)

(** ** Running the Local Store

    Every access of the class to [localStorage.getItem], [setItem] or
    [removeItem] throws, so that [getData] reads [{}] and [saveData] answers
    [false] whatever the Web Storage holds or would take. *)

Section LocalStoreFacts.
Context {S : Type} (env : Env S).
Implicit Types (w : World S) (d : CacheDocument) (mu : Mutation).

Lemma getData_run w : LocalStorage.getData w = (Ok emptyDocument, w).
Proof. reflexivity. Qed.

Lemma saveData_run d w : LocalStorage.saveData env d w = (Ok false, w).
Proof. reflexivity. Qed.

Lemma getUsers_run w : LocalStorage.getUsers w = (Ok ∅, w).
Proof. reflexivity. Qed.

Lemma getSyncQueue_run w : LocalStorage.getSyncQueue w = (Ok [], w).
Proof. reflexivity. Qed.

Lemma addToSyncQueue_run p w :
  LocalStorage.addToSyncQueue env p w = (Ok tt, advance 2 w).
Proof. reflexivity. Qed.

Lemma removeSyncItem_run id w : LocalStorage.removeSyncItem env id w = (Ok tt, w).
Proof. reflexivity. Qed.

Lemma updateSyncAttempts_run id n w :
  LocalStorage.updateSyncAttempts env id n w = (Ok tt, w).
Proof. reflexivity. Qed.

Lemma setLastSync_run w : LocalStorage.setLastSync env w = (Ok tt, advance 1 w).
Proof. reflexivity. Qed.

Lemma initializeStorage_run w : LocalStorage.initializeStorage env w = (Ok tt, w).
Proof. reflexivity. Qed.

(** Every local mutation reads the clock for its queue item and has no other
    effect; it never throws. *)
Lemma mutation_run mu w : run_mutation env mu w = (Ok tt, advance (ticks mu) w).
Proof. destruct mu; reflexivity. Qed.

Lemma advance_advance n m w : advance n (advance m w) = advance (n + m) w.
Proof. unfold advance. cbn [clock storage writes isOnline server exchanges sleeps]. f_equal. lia. Qed.


End LocalStoreFacts.

(** ** The Web Storage is never reached *)

Section StoreKept.
Context {S : Type} (env : Env S).
Implicit Types (w : World S).

Lemma store_kept_refl w : store_kept w w.
Proof. split; reflexivity. Qed.

Lemma store_kept_trans w1 w2 w3 : store_kept w1 w2 → store_kept w2 w3 → store_kept w1 w3.
Proof. intros [H1 H2] [K1 K2]. split; congruence. Qed.

Lemma store_kept_doc w w' : store_kept w w' → doc w' = doc w.
Proof. intros [H _]. unfold doc. rewrite H. reflexivity. Qed.

Lemma keeps_ret {A} (a : A) : keeps_store (ret (S := S) a).
Proof. intros w. apply store_kept_refl. Qed.

Lemma keeps_throw {A} e : keeps_store (throw (S := S) (A := A) e).
Proof. intros w. apply store_kept_refl. Qed.

Lemma keeps_bind {A B} (m : M S A) (k : A → M S B) :
  keeps_store m → (∀ a, keeps_store (k a)) → keeps_store (bind m k).
Proof.
  intros Hm Hk w. specialize (Hm w). unfold exec, bind in *.
  destruct (m w) as [[a|e] w1]; cbn [snd] in *; [|exact Hm].
  eapply store_kept_trans; [exact Hm|apply Hk].
Qed.

Lemma keeps_try_catch {A} (m : M S A) (h : Exn → M S A) :
  keeps_store m → (∀ e, keeps_store (h e)) → keeps_store (try_catch m h).
Proof.
  intros Hm Hh w. specialize (Hm w). unfold exec, try_catch in *.
  destruct (m w) as [[a|e] w1]; cbn [snd] in *; [exact Hm|].
  eapply store_kept_trans; [exact Hm|apply Hh].
Qed.

Lemma keeps_for_each {A} (l : list A) (body : A → M S unit) :
  (∀ x, keeps_store (body x)) → keeps_store (for_each l body).
Proof.
  intros Hbody. induction l as [|x l IH]; [apply keeps_ret|].
  cbn [for_each]. apply keeps_bind; [apply Hbody|intros _; exact IH].
Qed.

Lemma keeps_tick : keeps_store (LocalStorage.tick (S := S)).
Proof. intros w. split; reflexivity. Qed.

Lemma keeps_online : keeps_store (APIClient.online (S := S)).
Proof. intros w. split; reflexivity. Qed.

Lemma keeps_wait delay : keeps_store (APIClient.wait (S := S) delay).
Proof. intros w. split; reflexivity. Qed.

Lemma keeps_fetch req : keeps_store (APIClient.fetch env req).
Proof.
  intros w. unfold exec, APIClient.fetch.
  destruct (handle env (server w) req); split; reflexivity.
Qed.

Lemma keeps_getData : keeps_store (LocalStorage.getData (S := S)).
Proof. intros w. split; reflexivity. Qed.

Lemma keeps_getUsers : keeps_store (LocalStorage.getUsers (S := S)).
Proof. intros w. split; reflexivity. Qed.

Lemma keeps_saveData d : keeps_store (LocalStorage.saveData env d).
Proof. intros w. split; reflexivity. Qed.

Lemma keeps_mutation mu : keeps_store (run_mutation env mu).
Proof. intros w. unfold exec. rewrite mutation_run. split; reflexivity. Qed.

Lemma keeps_setUser name userData : keeps_store (LocalStorage.setUser env name userData).
Proof. exact (keeps_mutation (SetUser name userData)). Qed.

Lemma keeps_setPlan weekStartId userName locations :
  keeps_store (LocalStorage.setPlan env weekStartId userName locations).
Proof. exact (keeps_mutation (SetPlan weekStartId userName locations)). Qed.

Lemma keeps_setAdminOverride adminName overrideWeekStart :
  keeps_store (LocalStorage.setAdminOverride env adminName overrideWeekStart).
Proof. exact (keeps_mutation (SetAdminOverride adminName overrideWeekStart)). Qed.

Lemma keeps_clearAdminOverride : keeps_store (LocalStorage.clearAdminOverride env).
Proof. exact (keeps_mutation ClearAdminOverride). Qed.

End StoreKept.

Create HintDb store discriminated.
#[export] Hint Resolve keeps_ret keeps_throw keeps_tick keeps_online keeps_wait keeps_fetch
  keeps_getData keeps_getUsers keeps_saveData keeps_mutation keeps_setUser keeps_setPlan
  keeps_setAdminOverride keeps_clearAdminOverride : store.

(** Splits a computation along its binds, handlers, loops and case
    distinctions, and closes the leaves with the facts of the database. *)
Ltac keeps :=
  repeat first
    [ progress auto with store
    | apply keeps_bind; [|intros ?]
    | apply keeps_try_catch; [|intros ?]
    | apply keeps_for_each; intros ?
    | match goal with
      | |- keeps_store (match ?x with _ => _ end) => destruct x
      | |- keeps_store (if ?b then _ else _) => destruct b
      end ].

(** The names of the scenarios are ordinary ones. *)
Lemma ordinary_name_20250811 : "20250811" ∉ Object_prototype.
Proof.
  intros Hin. unfold Object_prototype in Hin.
  repeat (apply elem_of_cons in Hin as [Hin|Hin]; [discriminate Hin|]).
  by apply elem_of_nil in Hin.
Defined.

Lemma ordinary_name_A : "A" ∉ Object_prototype.
Proof.
  intros Hin. unfold Object_prototype in Hin.
  repeat (apply elem_of_cons in Hin as [Hin|Hin]; [discriminate Hin|]).
  by apply elem_of_nil in Hin.
Defined.

(** ** Local mutations and the queue *)

Section MutationFacts.
Context {S : Type} (env : Env S).
Implicit Types (w : World S) (d : CacheDocument) (mu : Mutation).

(** C2, as the code has it.  A local mutating operation ([setUser],
    [removeUser], [setPlan], [addCustomLocation], [setAdminOverride],
    [clearAdminOverride]) returns normally and appends nothing to the sync
    queue: it pushes its item onto the queue of a document read as [{}] and
    hands the document to a [saveData] that fails.  After the call the Web
    Storage holds the queue it held before, [getSyncQueue] reads the empty
    queue, and nothing has changed but the clock, read for the item's id and
    time stamp. *)
Theorem mutation_enqueues_nothing mu w :
  ordinary mu →
  let w' := exec (run_mutation env mu) w in
  eval (run_mutation env mu) w = Ok tt
  ∧ w' = advance (ticks mu) w
  ∧ queue_of w' = queue_of w
  ∧ eval LocalStorage.getSyncQueue w' = Ok [].
Proof.
  intros _ w'. subst w'. unfold eval, exec. rewrite mutation_run.
  repeat split.
Qed.

End MutationFacts.

(** [setPlan] in a browser with nothing stored, on a Web Storage that would
    take every write. *)
Lemma mutation_enqueues_nothing_witness :
  let mu := SetPlan "20250811" "A" Scenario.planX in
  let w' := exec (run_mutation Scenario.env_accepting mu) (Scenario.w_fresh false) in
  eval (run_mutation Scenario.env_accepting mu) (Scenario.w_fresh false) = Ok tt
  ∧ w' = advance (ticks mu) (Scenario.w_fresh false)
  ∧ queue_of w' = queue_of (Scenario.w_fresh false)
  ∧ eval LocalStorage.getSyncQueue w' = Ok [].
Proof.
  apply (mutation_enqueues_nothing Scenario.env_accepting
           (SetPlan "20250811" "A" Scenario.planX) (Scenario.w_fresh false)).
  exact ordinary_name_20250811.
Defined.

(** C2 at work: after that [setPlan] no queue item is left behind, neither
    in what [getSyncQueue] reads nor in the Web Storage. *)
Lemma setPlan_enqueues_nothing :
  let w' := exec (LocalStorage.setPlan Scenario.env_accepting "20250811" "A" Scenario.planX)
                 (Scenario.w_fresh false) in
  queue_of w' = []
  ∧ eval LocalStorage.getSyncQueue w' = Ok []
  ∧ storage w' = None ∧ writes w' = [].
Proof. repeat split. Qed.

(** ** Cascade delete *)

Section RemoveUser.
Context {S : Type} (env : Env S).
Implicit Types (w : World S) (d : CacheDocument).


End RemoveUser.


(** ** Storage failure *)

Section StorageFailure.
Context {S : Type} (env : Env S).
Implicit Types (w : World S) (d : CacheDocument) (mu : Mutation).

(** C8, as the code has it.  When the storage refuses the writes, [saveData]
    catches the error and answers [false] without touching the world; a local
    mutation does not pass the failure on (it returns normally), and it leaves
    the stored document and the history of persisted documents as they
    were. *)
Theorem storage_failure_swallowed mu d w :
  full env →
  LocalStorage.saveData env d w = (Ok false, w)
  ∧ eval (run_mutation env mu) w = Ok tt
  ∧ storage (exec (run_mutation env mu) w) = storage w
  ∧ writes (exec (run_mutation env mu) w) = writes w.
Proof.
  intros _. split; [apply saveData_run|].
  unfold eval, exec. rewrite mutation_run. repeat split.
Qed.

End StorageFailure.

(** With the quota exhausted, [setUser] on the initial store changes nothing
    and returns normally. *)
Lemma storage_failure_swallowed_witness :
  LocalStorage.saveData Scenario.env_quota emptyDocument Scenario.w_initial
  = (Ok false, Scenario.w_initial)
  ∧ eval (run_mutation Scenario.env_quota
            (SetUser "A" (LocalStorage.seedUser "1234" false))) Scenario.w_initial = Ok tt
  ∧ storage (exec (run_mutation Scenario.env_quota
                     (SetUser "A" (LocalStorage.seedUser "1234" false))) Scenario.w_initial)
    = storage Scenario.w_initial
  ∧ writes (exec (run_mutation Scenario.env_quota
                    (SetUser "A" (LocalStorage.seedUser "1234" false))) Scenario.w_initial)
    = writes Scenario.w_initial.
Proof.
  apply (storage_failure_swallowed Scenario.env_quota
           (SetUser "A" (LocalStorage.seedUser "1234" false))
           emptyDocument Scenario.w_initial).
  intros d. reflexivity.
Defined.

(** C8 as stated fails: the storage refuses the write of [setUser], and the
    call reports nothing to its caller. *)
Lemma storage_failure_not_reported :
  full Scenario.env_quota
  ∧ ¬ reports_failure
        (LocalStorage.setUser Scenario.env_quota "A" (LocalStorage.seedUser "1234" false))
        Scenario.w_initial.
Proof.
  split; [intros d; reflexivity|].
  intros [e He]. vm_compute in He. discriminate He.
Qed.

(** ** Remote Gateway *)

Section GatewayFacts.
Context {S : Type} (env : Env S).
Implicit Types (w : World S) (req : Request).

Lemma fetch_run req w :
  APIClient.fetch env req w = (Ok (snd (handle env (server w) req)), after_fetch env req w).
Proof.
  unfold APIClient.fetch, after_fetch. destruct (handle env (server w) req); reflexivity.
Qed.

(** One iteration of the loop of [fetchWithRetry]. *)
Lemma fetchLoop_step left attempt maxRetries req w :
  APIClient.fetchLoop env (Datatypes.S left) attempt maxRetries req w
  = match snd (handle env (server w) req) with
    | HttpSuccess (Some json) => (Ok (Some json), after_fetch env req w)
    | o =>
        let error := match o with
                     | NetworkFailure => NetworkError
                     | HttpError status body => APIClient.error_of status body
                     | HttpSuccess _ => JsonSyntaxError
                     end in
        if Nat.eqb attempt (maxRetries - 1)
        then (Throw (FetchError error), after_fetch env req w)
        else APIClient.fetchLoop env left (Datatypes.S attempt) maxRetries req
               (after_wait (2 ^ Z.of_nat attempt * 1000) (after_fetch env req w))
    end.
Proof.
  cbn [APIClient.fetchLoop]. unfold bind at 1. unfold try_catch, bind at 1.
  unfold APIClient.fetch_once, bind at 1. rewrite fetch_run.
  destruct (snd (handle env (server w) req)) as [|status body|[json|]];
    cbn [throw ret]; try reflexivity;
    destruct (Nat.eqb attempt (maxRetries - 1)); reflexivity.
Qed.


End GatewayFacts.

Section NonOkRetried.
Context {S : Type} (env : Env S).
Implicit Types (w : World S) (req : Request).

Lemma fetchLoop_rejecting left attempt maxRetries req w :
  Gateway.rejecting env req →
  (attempt + left = maxRetries)%nat → (1 ≤ left)%nat →
  ∃ status body w' delta,
    APIClient.fetchLoop env left attempt maxRetries req w
    = (Throw (FetchError (APIClient.error_of status (Some body))), w')
    ∧ exchanges w' = exchanges w ++ delta
    ∧ length delta = left
    ∧ Forall (fun x => fst x = req) delta
    ∧ last delta = Some (req, HttpError status (Some body))
    ∧ sleeps w' = sleeps w ++ Gateway.backoff attempt (left - 1).
Proof.
  intros Hrej. revert attempt w.
  induction left as [|left IH]; intros attempt w Hsum Hpos; [lia|].
  destruct (Hrej (server w)) as (status & body & Hans).
  rewrite fetchLoop_step, Hans. cbn zeta.
  destruct (Nat.eqb_spec attempt (maxRetries - 1)) as [Hlast|Hmore].
  - assert (left = 0%nat) as -> by lia.
    exists status, body, (after_fetch env req w), [(req, HttpError status (Some body))].
    cbn [after_fetch exchanges sleeps]. rewrite Hans.
    repeat split; [repeat constructor|by rewrite app_nil_r].
  - destruct (IH (Datatypes.S attempt)
                (after_wait (2 ^ Z.of_nat attempt * 1000) (after_fetch env req w)))
      as (status' & body' & w' & delta & Hrun & Hex & Hlen & Hall & Hlast & Hsl);
      [lia|lia|].
    exists status', body', w', ((req, HttpError status (Some body)) :: delta).
    split; [exact Hrun|].
    cbn [after_wait after_fetch exchanges sleeps] in Hex, Hsl. rewrite Hans in Hex.
    split; [rewrite Hex, <- app_assoc; reflexivity|].
    split; [cbn; lia|].
    split; [constructor; [reflexivity|exact Hall]|].
    split.
    + destruct delta; [cbn in Hlen; lia|]. exact Hlast.
    + rewrite Hsl, <- app_assoc. f_equal.
      replace (Datatypes.S left - 1)%nat with (Datatypes.S (left - 1)) by lia.
      reflexivity.
Qed.

(** C4, as the code has it.  When the remote answers a request with a non-2xx
    status and a JSON body on every attempt, [fetchWithRetry] with
    [maxRetries >= 1] sends the request [maxRetries] times, waits
    1000 ms, 2000 ms, ... between the attempts, and only then fails, with the
    error made from the last answer. *)
Theorem non_2xx_json_retried req maxRetries w :
  Gateway.rejecting env req →
  (1 ≤ maxRetries)%nat →
  ∃ status body w' delta,
    APIClient.fetchWithRetry env req maxRetries w
    = (Throw (FetchError (APIClient.error_of status (Some body))), w')
    ∧ exchanges w' = exchanges w ++ delta
    ∧ length delta = maxRetries
    ∧ Forall (fun x => fst x = req) delta
    ∧ last delta = Some (req, HttpError status (Some body))
    ∧ sleeps w' = sleeps w ++ Gateway.backoff 0 (maxRetries - 1).
Proof.
  intros Hrej Hpos. unfold APIClient.fetchWithRetry.
  apply fetchLoop_rejecting; [exact Hrej|lia|exact Hpos].
Qed.

End NonOkRetried.

(** Three attempts against a remote that always answers 400 with JSON. *)
Lemma non_2xx_json_retried_witness :
  ∃ status body w' delta,
    APIClient.fetchWithRetry Gateway.env_invalid
      (POST_plans_set "20250811" "A" ["X"]) 3 Scenario.w_initial
    = (Throw (FetchError (APIClient.error_of status (Some body))), w')
    ∧ exchanges w' = exchanges Scenario.w_initial ++ delta
    ∧ length delta = 3%nat
    ∧ Forall (fun x => fst x = POST_plans_set "20250811" "A" ["X"]) delta
    ∧ last delta = Some (POST_plans_set "20250811" "A" ["X"], HttpError status (Some body))
    ∧ sleeps w' = sleeps Scenario.w_initial ++ Gateway.backoff 0 (3 - 1).
Proof.
  apply (non_2xx_json_retried Gateway.env_invalid
           (POST_plans_set "20250811" "A" ["X"]) 3 Scenario.w_initial).
  - intros s. eexists _, _. reflexivity.
  - lia.
Defined.

(** C4 as stated fails: the first answer is 409 with a JSON body carrying a
    message, yet the gateway sends the request a second time and the call
    succeeds with the second answer. *)
Lemma non_2xx_json_not_immediate :
  snd (handle Gateway.env_conflict_once (server Gateway.w_start) Gateway.add_user_request)
  = HttpError 409 (Some (Some "User already exists"))
  ∧ APIClient.fetchWithRetry Gateway.env_conflict_once Gateway.add_user_request 3
      Gateway.w_start
    = (Ok (Some Scenario.okBody),
       mkWorld (Some LocalStorage.defaultData) [] 0 true 2%nat
         [(Gateway.add_user_request, HttpError 409 (Some (Some "User already exists")));
          (Gateway.add_user_request, HttpSuccess (Some Scenario.okBody))]
         [1000]).
Proof. split; reflexivity. Qed.

(** ** Running the Sync Engine *)

Section SyncFacts.
Context {S : Type} (env : Env S).
Implicit Types (w : World S) (req : Request) (item : SyncQueueItem).

Lemma keeps_fetch_once req : keeps_store (APIClient.fetch_once env req).
Proof. unfold APIClient.fetch_once. keeps. Qed.

Lemma keeps_fetchLoop left attempt maxRetries req :
  keeps_store (APIClient.fetchLoop env left attempt maxRetries req).
Proof.
  revert attempt. induction left as [|left IH]; intros attempt; cbn [APIClient.fetchLoop].
  - apply keeps_ret.
  - apply keeps_bind.
    + apply keeps_try_catch.
      * apply keeps_bind; [apply keeps_fetch_once|intros json; apply keeps_ret].
      * intros e. keeps.
    + intros [json|]; [apply keeps_ret|apply IH].
Qed.

Lemma keeps_call req : keeps_store (APIClient.call env req).
Proof. apply keeps_fetchLoop. Qed.

Lemma keeps_send req message : keeps_store (APIClient.send env req message).
Proof.
  unfold APIClient.send. apply keeps_bind; [apply keeps_online|].
  intros on. destruct on; cbn [negb]; [|apply keeps_ret].
  apply keeps_try_catch; [apply keeps_call|intros e; apply keeps_ret].
Qed.

Lemma send_offline req message w :
  isOnline w = false →
  APIClient.send env req message w = (Ok (Some (mkResponse true (Some message) None)), w).
Proof. intros H. unfold APIClient.send, bind, APIClient.online. rewrite H. reflexivity. Qed.

Lemma fetchLoop_failing left attempt maxRetries req w :
  failing env req →
  (attempt + left = maxRetries)%nat → (1 ≤ left)%nat →
  ∃ e, eval (APIClient.fetchLoop env left attempt maxRetries req) w = Throw e.
Proof.
  intros Hfail. revert attempt w.
  induction left as [|left IH]; intros attempt w Hsum Hpos; [lia|].
  unfold eval. rewrite fetchLoop_step.
  pose proof (Hfail (server w)) as Hans.
  destruct (snd (handle env (server w) req)) as [|status body|[json|]];
    [| |by destruct (Hans json)|];
    (destruct (Nat.eqb_spec attempt (maxRetries - 1)); cbn [fst]; [eauto|]);
    apply IH; lia.
Qed.

(** A write method whose request cannot be delivered still answers
    [ok: true]. *)
Lemma send_failing req message w :
  failing env req →
  eval (APIClient.send env req message) w
  = Ok (Some (mkResponse true (Some message) None)).
Proof.
  intros Hfail. unfold eval, APIClient.send, bind, APIClient.online.
  destruct (isOnline w); cbn [negb]; [|reflexivity].
  unfold try_catch, APIClient.call, APIClient.fetchWithRetry.
  destruct (fetchLoop_failing 3 0 3 req w Hfail eq_refl) as [e He]; [lia|].
  unfold eval in He.
  destruct (APIClient.fetchLoop env 3 0 3 req w) as [res w']. cbn [fst] in He.
  subst res. reflexivity.
Qed.

(** Offline, [APIClient.setPlan] is its local mutation and the answer
    [{ok: true, message}]. *)
Lemma setPlan_offline weekStartId userName locations w :
  isOnline w = false →
  APIClient.setPlan env weekStartId userName locations w
  = (Ok (Some (mkResponse true (Some "Saved locally. Will sync when online.") None)),
     advance 2 w).
Proof.
  intros H. unfold APIClient.setPlan, bind.
  change (LocalStorage.setPlan env weekStartId userName locations)
    with (run_mutation env (SetPlan weekStartId userName locations)).
  rewrite mutation_run. cbn [ticks]. rewrite send_offline by exact H. reflexivity.
Qed.

(** The replay pass reads the queue through [getSyncQueue], hence as empty:
    online or not, it returns before its loop. *)
Lemma processSyncQueue_run w : APIClient.processSyncQueue env w = (Ok tt, w).
Proof.
  unfold APIClient.processSyncQueue, bind, APIClient.online.
  destruct (isOnline w); reflexivity.
Qed.




(** C5, as the code has it.  Let user [U] save plan [A] and then plan [B]
    for a week [W] of an ordinary name while offline, and let a replay pass
    run once the client is online.  Neither call has queued anything, so the
    pass sends nothing: the
    remote is in the state it was in before the first call, with no request
    received, and does not learn of [B].  Nor does the local store hold [B]:
    the Web Storage is as it was, and reading the plans of week [W] throws a
    TypeError. *)
Theorem queued_plans_never_replayed weekId userName locationsA locationsB w :
  weekId ∉ Object_prototype →
  isOnline w = false →
  let w1 := exec (APIClient.setPlan env weekId userName locationsA) w in
  let w2 := exec (APIClient.setPlan env weekId userName locationsB) w1 in
  let w3 := exec (APIClient.processSyncQueue env) (connected true w2) in
  eval LocalStorage.getSyncQueue w2 = Ok []
  ∧ server w3 = server w
  ∧ exchanges w3 = exchanges w
  ∧ storage w3 = storage w
  ∧ eval (StoreAccess.getPlansForWeek weekId) w3 = Throw TypeError.
Proof.
  intros _ Hoff w1 w2 w3. subst w1 w2 w3. unfold exec.
  rewrite (setPlan_offline _ _ _ w Hoff). cbn [snd].
  rewrite (setPlan_offline _ _ _ (advance 2 w) Hoff). cbn [snd].
  rewrite processSyncQueue_run. repeat split.
Qed.

End SyncFacts.



(** "A" saves plan X and then plan Y for the week 20250811 while offline,
    in a browser with nothing stored; the plans sheet of the remote is
    empty. *)
Lemma queued_plans_never_replayed_witness :
  let w := mkWorld None [] 0 false ([] : list Remote.PlanRow) [] [] in
  let w1 := exec (APIClient.setPlan Remote.env "20250811" "A" Scenario.planX) w in
  let w2 := exec (APIClient.setPlan Remote.env "20250811" "A" Scenario.planY) w1 in
  let w3 := exec (APIClient.processSyncQueue Remote.env) (connected true w2) in
  eval LocalStorage.getSyncQueue w2 = Ok []
  ∧ server w3 = server w
  ∧ exchanges w3 = exchanges w
  ∧ storage w3 = storage w
  ∧ eval (StoreAccess.getPlansForWeek "20250811") w3 = Throw TypeError.
Proof.
  apply (queued_plans_never_replayed Remote.env "20250811" "A" Scenario.planX Scenario.planY
           (mkWorld None [] 0 false ([] : list Remote.PlanRow) [] [])).
  - exact ordinary_name_20250811.
  - reflexivity.
Defined.

(** C5 at work: after the two offline saves and the pass, the plans sheet
    has no plan of "A" for the week; and with both updates waiting in a
    stored queue, a pass leaves the sheet empty as well. *)
Lemma later_plan_not_delivered :
  let w := mkWorld None [] 0 false ([] : list Remote.PlanRow) [] [] in
  let w1 := exec (APIClient.setPlan Remote.env "20250811" "A" Scenario.planX) w in
  let w2 := exec (APIClient.setPlan Remote.env "20250811" "A" Scenario.planY) w1 in
  let w3 := exec (APIClient.processSyncQueue Remote.env) (connected true w2) in
  Remote.plan_of (server w3) "20250811" "A" = None
  ∧ exchanges w3 = []
  ∧ Remote.plan_of (server (exec (APIClient.processSyncQueue Remote.env) Remote.w_two_updates))
      "20250811" "A" = None.
Proof. repeat apply conj; reflexivity. Qed.

#[export] Hint Resolve keeps_fetch_once keeps_fetchLoop keeps_call keeps_send : store.

(** ** The plans sheet honours the plan-store contract *)

Module RemoteFacts.
Import Remote.

Lemma matches_spec weekStart name row :
  matches weekStart name row = true ↔ week_start row = weekStart ∧ row_name row = name.
Proof.
  unfold matches. rewrite andb_true_iff, !String.eqb_eq. reflexivity.
Qed.









End RemoteFacts.


(** ** Read-path merge of the user list *)

Section MergeFacts.
Context {S : Type} (env : Env S).
Implicit Types (w : World S) (u : gmap string UserData).

Lemma member_empty {A} name :
  member (∅ : gmap string A) name
  = if bool_decide (name ∈ Object_prototype) then Inherited else Undefined.
Proof. unfold member. rewrite lookup_empty. reflexivity. Qed.

(** The loop of the merge over the snapshot [{}]: [setUser] is called for
    the inherited names and for no other. *)
Lemma mergeUsers_loop_run sus w :
  for_each sus (fun user =>
    match member (∅ : gmap string UserData) (su_name user) with
    | Own current =>
        LocalStorage.setUser env (su_name user)
          (APIClient.mergeUser current (su_isAdmin user))
    | Inherited =>
        LocalStorage.setUser env (su_name user) (APIClient.mergeUser ∅ (su_isAdmin user))
    | Undefined => ret tt
    end) w
  = (Ok tt, advance (2 * length (inherited sus)) w).
Proof.
  revert w. induction sus as [|user rest IH]; intros w.
  - destruct w; reflexivity.
  - cbn [for_each]. unfold bind. rewrite member_empty.
    unfold inherited. rewrite filter_cons. fold (inherited rest).
    destruct (decide (su_name user ∈ Object_prototype)) as [Hin|Hout].
    + rewrite bool_decide_eq_true_2 by exact Hin.
      pose proof (mutation_run env (SetUser (su_name user)
                    (APIClient.mergeUser ∅ (su_isAdmin user))) w) as Hmu.
      cbn [run_mutation ticks] in Hmu. rewrite Hmu, IH, advance_advance.
      cbn [length]. do 2 f_equal. lia.
    + rewrite bool_decide_eq_false_2 by exact Hout. cbn [ret]. apply IH.
Qed.

Lemma mergeUsers_run sus w :
  APIClient.mergeUsers env sus w = (Ok tt, advance (2 * length (inherited sus)) w).
Proof.
  unfold APIClient.mergeUsers. unfold bind at 1. rewrite getUsers_run.
  apply mergeUsers_loop_run.
Qed.

Lemma keeps_mergeUsers sus : keeps_store (APIClient.mergeUsers env sus).
Proof. intros w. unfold exec. rewrite mergeUsers_run. split; reflexivity. Qed.

Lemma keeps_localUsersResponse : keeps_store (APIClient.localUsersResponse (S := S)).
Proof. intros w. split; reflexivity. Qed.

(** Whatever the remote answers, [getUsers] leaves the Web Storage alone. *)
Lemma keeps_APIClient_getUsers : keeps_store (APIClient.getUsers env).
Proof.
  unfold APIClient.getUsers.
  apply keeps_bind; [apply keeps_online|]. intros on.
  destruct on; cbn [negb]; [|apply keeps_localUsersResponse].
  apply keeps_try_catch; [|intros e; apply keeps_localUsersResponse].
  apply keeps_bind; [apply keeps_call|]. intros [response|]; [|apply keeps_throw].
  apply keeps_bind; [|intros _; apply keeps_ret].
  destruct (r_users response); [apply keeps_mergeUsers|apply keeps_ret].
Qed.


(** C10.  Whatever the remote answers and whatever the Web Storage holds or
    would take, [getUsers] leaves the set of stored user names as it was,
    and every stored user record agrees with what it was on all fields other
    than [isAdmin].  (For a listed name that every object inherits, such as
    [toString], the merge does call [setUser]; its writes fail like every
    write of the class, so no record is added.) *)
Theorem getUsers_keeps_users w :
  userNames (doc (exec (APIClient.getUsers env) w)) = userNames (doc w)
  ∧ ∀ name,
      delete "isAdmin" <$> userRecord (doc (exec (APIClient.getUsers env) w)) name
      = delete "isAdmin" <$> userRecord (doc w) name.
Proof.
  rewrite (store_kept_doc _ _ (keeps_APIClient_getUsers w)). split; reflexivity.
Qed.


End MergeFacts.

#[export] Hint Resolve keeps_mergeUsers keeps_localUsersResponse keeps_APIClient_getUsers : store.



(** A list that names [toString]: the merge calls [setUser] for it, which
    reads the clock twice, and still no user is added. *)
Lemma getUsers_inherited_name :
  let w' := exec (APIClient.getUsers UserList.env_inherited) Scenario.w_two_users in
  clock w' = 2%nat
  ∧ userRecord (doc w') "toString" = None
  ∧ storage w' = storage Scenario.w_two_users
  ∧ writes w' = [].
Proof. repeat apply conj; reflexivity. Qed.

(** ** Week Clock *)

Module WeekClockFacts.
Import WeekClock.

(** *** The calendar *)

(** [YearFromDay d] is the year ECMA-262 asks for: the largest [y] with
    [DayFromYear y <= d]. *)
Lemma YearFromDay_spec d :
  DayFromYear (YearFromDay d) <= d < DayFromYear (YearFromDay d + 1).
Proof.
  unfold YearFromDay. set (y := 1970 + d * 400 / 146097).
  destruct (Z.ltb_spec d (DayFromYear y)) as [H1|H1];
    [|destruct (Z.leb_spec (DayFromYear (y + 1)) d) as [H2|H2]];
    unfold DayFromYear in *; subst y; Z.div_mod_to_equations; lia.
Qed.

Lemma DayFromYear_succ y : DayFromYear (y + 1) = DayFromYear y + DaysInYear y.
Proof.
  unfold DayFromYear, DaysInYear.
  destruct (Z.eqb_spec (y mod 4) 0), (Z.eqb_spec (y mod 100) 0), (Z.eqb_spec (y mod 400) 0);
    cbn [negb]; Z.div_mod_to_equations; lia.
Qed.

Lemma InLeapYear_cases y : InLeapYear y = 0 ∨ InLeapYear y = 1.
Proof.
  unfold InLeapYear, DaysInYear.
  destruct (y mod 4 =? 0), (y mod 100 =? 0), (y mod 400 =? 0); cbn [negb]; lia.
Qed.

Lemma DayWithinYear_bounds t :
  0 <= DayWithinYear t < 365 + InLeapYear (YearFromTime t).
Proof.
  unfold DayWithinYear, YearFromTime, InLeapYear.
  pose proof (YearFromDay_spec (Day t)) as H.
  rewrite DayFromYear_succ in H. lia.
Qed.

Lemma MonthFromTime_bounds t : 0 <= MonthFromTime t <= 11.
Proof.
  unfold MonthFromTime, MonthFromDayWithinYear.
  repeat match goal with |- context [if ?b then _ else _] => destruct b end; lia.
Qed.

(** The date lies within its month. *)
Lemma DateFromTime_bounds t :
  1 <= DateFromTime t <= DaysInMonth (YearFromTime t) (MonthFromTime t + 1).
Proof.
  pose proof (DayWithinYear_bounds t) as Hdy.
  destruct (InLeapYear_cases (YearFromTime t)) as [Hleap|Hleap];
    unfold DateFromTime, DaysInMonth, MonthFromTime, MonthFromDayWithinYear;
    rewrite Hleap in *;
    repeat match goal with
           | |- context [if ?a <? ?b then _ else _] => destruct (Z.ltb_spec a b)
           end;
    match goal with
    | |- context [if ?c then ?a else ?b] =>
        let v := eval vm_compute in (if c then a else b) in
        change (if c then a else b) with v
    end;
    match goal with
    | |- context [MonthStart ?a ?b] =>
        let v := eval vm_compute in (MonthStart a b) in
        change (MonthStart a b) with v
    end;
    lia.
Qed.

Lemma TimeWithinDay_bounds t : 0 <= TimeWithinDay t < msPerDay.
Proof. unfold TimeWithinDay, msPerDay. apply Z.mod_pos_bound. lia. Qed.

Lemma Day_MakeDate d time : 0 <= time < msPerDay → Day (MakeDate d time) = d.
Proof. unfold Day, MakeDate, msPerDay. intros H. Z.div_mod_to_equations. lia. Qed.

(** [MakeDay] undoes the decomposition of a day into year, month and date,
    and is linear in the date. *)
Lemma MakeDay_civil t k :
  MakeDay (YearFromTime t) (MonthFromTime t) (DateFromTime t + k) = Day t + k.
Proof.
  pose proof (MonthFromTime_bounds t) as Hm.
  unfold MakeDay.
  replace (MonthFromTime t / 12) with 0 by (Z.div_mod_to_equations; lia).
  replace (MonthFromTime t mod 12) with (MonthFromTime t) by (Z.div_mod_to_equations; lia).
  rewrite Z.add_0_r. unfold DateFromTime, DayWithinYear. lia.
Qed.

(** [d.setUTCDate(d.getUTCDate() + k)] moves [d] by [k] days. *)
Lemma setUTCDate_shift t k :
  setUTCDate (Some t) (plus (getUTCDate (Some t)) (Some k)) = TimeClip (t + k * msPerDay).
Proof.
  cbn [setUTCDate plus getUTCDate option_map]. rewrite MakeDay_civil.
  f_equal. unfold MakeDate, Day, TimeWithinDay, msPerDay. Z.div_mod_to_equations. lia.
Qed.

Lemma TimeClip_Some t t' : TimeClip t = Some t' → t' = t ∧ Z.abs t <= 8640000000000000.
Proof.
  unfold TimeClip. destruct (Z.leb_spec (Z.abs t) 8640000000000000); [|discriminate].
  intros [= <-]. auto.
Qed.

Lemma TimeClip_valid t : Z.abs t <= 8640000000000000 → TimeClip t = Some t.
Proof. unfold TimeClip. intros H. destruct (Z.leb_spec (Z.abs t) 8640000000000000); [done|lia]. Qed.

(** The year bounds the day. *)
Lemma year_bounds_day t :
  1000 <= YearFromTime t <= 9999 → -354285 <= Day t < 2932897.
Proof.
  unfold YearFromTime. intros H. pose proof (YearFromDay_spec (Day t)) as Hs.
  unfold DayFromYear in Hs. Z.div_mod_to_equations. lia.
Qed.

End WeekClockFacts.

Module WeekStrings.
Import WeekClock WeekClockFacts.

Lemma append_cons x (a s : string) : String x a +:+ s = String x (a +:+ s).
Proof. reflexivity. Qed.

Lemma append_assoc (a b c : string) : (a +:+ b) +:+ c = a +:+ (b +:+ c).
Proof.
  induction a as [|x a IH]; [reflexivity|]. by rewrite !append_cons, IH.
Qed.

Lemma Z_range_check (P : Z → bool) lo n :
  forallb P (Z_range lo n) = true → ∀ z, lo <= z < lo + n → P z = true.
Proof.
  intros H z Hz. rewrite forallb_forall in H. apply H.
  unfold Z_range. apply in_map_iff. exists (Z.to_nat (z - lo)).
  split; [lia|]. apply in_seq. lia.
Qed.

(** A parser that has consumed all of [a] consumes the same from [a]
    followed by [s]. *)
Lemma read_digits_extend n acc a v s :
  read_digits n acc a = Some (v, EmptyString) →
  read_digits n acc (a +:+ s) = Some (v, s).
Proof.
  revert acc a. induction n as [|n IH]; intros acc a; cbn [read_digits].
  - intros [= -> ->]. reflexivity.
  - destruct a as [|c a]; [discriminate|]. rewrite append_cons.
    destruct (digit_val c); [apply IH|discriminate].
Qed.

Lemma read_year_extend a v s :
  read_year a = Some (v, EmptyString) → read_year (a +:+ s) = Some (v, s).
Proof.
  destruct a as [|c a]; [discriminate|]. unfold read_year. rewrite append_cons.
  destruct (Ascii.eqb c "+"); [apply read_digits_extend|].
  destruct (Ascii.eqb c "-").
  - destruct (read_digits 6 0 a) as [[y rest]|] eqn:E; [|discriminate].
    destruct (y =? 0) eqn:Ey; [discriminate|]. intros [= <- ->].
    rewrite (read_digits_extend _ _ _ _ s E), Ey. reflexivity.
  - apply (read_digits_extend 4 0 (String c a)).
Qed.

Lemma year_reads_back_all y : 1000 <= y <= 9999 → read_year (ToString (Some y)) = Some (y, EmptyString).
Proof.
  intros Hy.
  assert (H : year_reads_back y = true).
  { apply (Z_range_check year_reads_back 1000 9000); [vm_compute; reflexivity|lia]. }
  unfold year_reads_back in H.
  destruct (read_year (ToString (Some y))) as [[v [|]]|]; try discriminate H.
  apply Z.eqb_eq in H. by subst.
Qed.

Lemma field_reads_back_all v :
  0 <= v <= 99 → read_digits 2 0 (padStart2 (ToString (Some v))) = Some (v, EmptyString).
Proof.
  intros Hv.
  assert (H : field_reads_back v = true).
  { apply (Z_range_check field_reads_back 0 100); [vm_compute; reflexivity|lia]. }
  unfold field_reads_back in H.
  destruct (read_digits 2 0 (padStart2 (ToString (Some v)))) as [[v' [|]]|]; try discriminate H.
  apply Z.eqb_eq in H. by subst.
Qed.

Lemma strip_hyphen_cons s : strip_hyphen ("-" +:+ s) = Some s.
Proof. reflexivity. Qed.

Lemma DaysInMonth_le_31 year month : 1 <= month <= 12 → DaysInMonth year month <= 31.
Proof.
  intros H. unfold DaysInMonth.
  destruct (InLeapYear_cases year) as [-> | ->];
    assert (month = 1 ∨ month = 2 ∨ month = 3 ∨ month = 4 ∨ month = 5 ∨ month = 6
            ∨ month = 7 ∨ month = 8 ∨ month = 9 ∨ month = 10 ∨ month = 11 ∨ month = 12)
      as Hm by lia;
    repeat (destruct Hm as [->|Hm]; [vm_compute; discriminate|]);
    subst; vm_compute; discriminate.
Qed.

(** Parsing the printed date of a day in a four-digit year gives the
    midnight that starts the day. *)
Lemma Date_parse_isoDate t :
  1000 <= YearFromTime t <= 9999 →
  Date_parse (isoDate (Some t) +:+ "T00:00:00.000Z") = TimeClip (Day t * msPerDay).
Proof.
  intros Hy.
  pose proof (MonthFromTime_bounds t) as Hm.
  pose proof (DateFromTime_bounds t) as Hd.
  pose proof (DaysInMonth_le_31 (YearFromTime t) (MonthFromTime t + 1) ltac:(lia)) as Hd31.
  unfold isoDate. cbn [getUTCFullYear getUTCMonth getUTCDate option_map plus].
  rewrite !append_assoc. unfold Date_parse.
  rewrite (read_year_extend _ _ _ (year_reads_back_all _ Hy)).
  rewrite strip_hyphen_cons.
  rewrite (read_digits_extend _ _ _ _ _ (field_reads_back_all (MonthFromTime t + 1) ltac:(lia))).
  rewrite strip_hyphen_cons.
  rewrite (read_digits_extend _ _ _ _ _ (field_reads_back_all (DateFromTime t) ltac:(lia))).
  unfold parse_end. rewrite String.eqb_refl.
  replace (1 <=? MonthFromTime t + 1) with true by (symmetry; apply Z.leb_le; lia).
  replace (MonthFromTime t + 1 <=? 12) with true by (symmetry; apply Z.leb_le; lia).
  replace (1 <=? DateFromTime t) with true by (symmetry; apply Z.leb_le; lia).
  replace (DateFromTime t <=? 31) with true by (symmetry; apply Z.leb_le; lia).
  cbn [andb].
  replace (MonthFromTime t + 1 - 1) with (MonthFromTime t) by lia.
  pose proof (MakeDay_civil t 0) as Hmk. rewrite Z.add_0_r in Hmk. rewrite Hmk, Z.add_0_r.
  unfold MakeDate. by rewrite Z.add_0_r.
Qed.

Lemma isoDate_nonempty d : String.eqb (isoDate d) "" = false.
Proof.
  unfold isoDate. destruct (ToString (getUTCFullYear d)); reflexivity.
Qed.

End WeekStrings.

Module WeekRoundTrip.
Import WeekClock WeekClockFacts WeekStrings.

Lemma weekStartId_weekIdOf date overrideDateISO :
  weekStartId (computeWeekStartIST date overrideDateISO)
  = weekIdOf (mondayDateOf (istDateOf (effectiveDate date overrideDateISO))).
Proof. reflexivity. Qed.

(** The week identifier depends on the day of the Monday only. *)
Lemma weekIdOf_Day t t' : Day t = Day t' → weekIdOf (Some t) = weekIdOf (Some t').
Proof.
  intros H. unfold weekIdOf, getUTCFullYear, getUTCMonth, getUTCDate, option_map, plus.
  unfold DateFromTime, MonthFromTime, DayWithinYear, YearFromTime. rewrite H. reflexivity.
Qed.

Lemma mondayDateOf_Some ist :
  mondayDateOf (Some ist)
  = TimeClip (ist + (if WeekDay ist =? 0 then -6 else - (WeekDay ist - 1)) * msPerDay).
Proof. unfold mondayDateOf. cbn [getUTCDay option_map mondayOffsetOf]. apply setUTCDate_shift. Qed.

Lemma Day_shift t k : Day (t + k * msPerDay) = Day t + k.
Proof. unfold Day, msPerDay. Z.div_mod_to_equations. lia. Qed.

(** The Monday found is a Monday. *)
Lemma monday_WeekDay ist tm : mondayDateOf (Some ist) = Some tm → WeekDay tm = 1.
Proof.
  rewrite mondayDateOf_Some. intros [-> _]%TimeClip_Some.
  unfold WeekDay. rewrite Day_shift.
  destruct (Z.eqb_spec ((Day ist + 4) mod 7) 0); Z.div_mod_to_equations; lia.
Qed.

Lemma head_dayDates date overrideDateISO :
  head (dayDates (computeWeekStartIST date overrideDateISO))
  = Some (isoDate
            (let mondayDate := mondayDateOf (istDateOf (effectiveDate date overrideDateISO)) in
             setUTCDate mondayDate (plus (getUTCDate mondayDate) (Some 0)))).
Proof. reflexivity. Qed.

(** C9, as the code has it.  For every instant [now] whose week starts, in
    the +5:30 calendar, on a Monday of a four-digit year (1000 to 9999),
    computing the week again with the override set to the first day-date of
    [computeWeek(now)] gives the same week identifier. *)
Theorem week_id_round_trip now monday :
  mondayOf now = Some monday →
  1000 <= YearFromTime monday <= 9999 →
  weekStartId (roundTrip now) = weekStartId (computeWeekStartIST (Some now) None).
Proof.
  intros Hmon Hyear. unfold roundTrip.
  rewrite head_dayDates, !weekStartId_weekIdOf.
  unfold mondayOf in Hmon. cbn [effectiveDate] in *.
  destruct (istDateOf (Some now)) as [ist|] eqn:Hist; [|discriminate Hmon].
  rewrite Hmon. cbv zeta.
  pose proof (monday_WeekDay _ _ Hmon) as Hwd.
  pose proof (year_bounds_day _ Hyear) as Hday.
  (* the first day-date is the printed Monday *)
  rewrite setUTCDate_shift, Z.mul_0_l, Z.add_0_r.
  assert (Hclip : TimeClip monday = Some monday).
  { rewrite mondayDateOf_Some in Hmon. apply TimeClip_Some in Hmon as [Heq Habs].
    apply TimeClip_valid. rewrite Heq. exact Habs. }
  rewrite Hclip. rewrite isoDate_nonempty.
  (* the override is the midnight that starts the Monday *)
  rewrite (Date_parse_isoDate _ Hyear).
  rewrite TimeClip_valid by (unfold msPerDay; lia).
  unfold istDateOf. cbn [plus new_Date].
  rewrite TimeClip_valid by (unfold msPerDay, IST_OFFSET; lia).
  set (ist' := Day monday * msPerDay + IST_OFFSET).
  assert (Hd : Day ist' = Day monday).
  { subst ist'. unfold Day, msPerDay, IST_OFFSET. Z.div_mod_to_equations. lia. }
  rewrite mondayDateOf_Some.
  assert (Hwd' : WeekDay ist' = 1) by (unfold WeekDay in *; rewrite Hd; exact Hwd).
  rewrite Hwd'. cbn [Z.eqb]. rewrite Z.sub_diag. cbn [Z.opp]. rewrite Z.mul_0_l, Z.add_0_r.
  rewrite TimeClip_valid by (subst ist'; unfold msPerDay, IST_OFFSET; lia).
  apply weekIdOf_Day. exact Hd.
Qed.

(** The round trip on 13 August 2025, 12:00 UTC. *)
Lemma week_id_round_trip_witness :
  weekStartId (roundTrip 1755086400000)
  = weekStartId (computeWeekStartIST (Some 1755086400000) None).
Proof.
  apply (week_id_round_trip 1755086400000 1754933400000).
  - vm_compute. reflexivity.
  - vm_compute. split; discriminate.
Defined.

(** C9 as stated fails for an instant of the year 999 (15 June 999, 00:00
    UTC): the week identifier is "9990610", the first day-date is
    "999-06-10", which is no date-time string, and the week computed from
    the override has the identifier of an Invalid Date. *)
Lemma week_id_round_trip_fails_before_1000 :
  weekStartId (computeWeekStartIST (Some (-30627504000000)) None) = "9990610"
  ∧ head (dayDates (computeWeekStartIST (Some (-30627504000000)) None)) = Some "999-06-10"
  ∧ weekStartId (roundTrip (-30627504000000)) = "NaNNaNNaN".
Proof. vm_compute. repeat apply conj; reflexivity. Qed.

End WeekRoundTrip.

(** ** The readers and the maintenance methods of the Local Store *)

Section StoreAccessFacts.
Context {S : Type} (env : Env S).
Implicit Types (w : World S) (d : CacheDocument).

Lemma queue_only_refl w : queue_only w w.
Proof. repeat split. Qed.

(** X1 ([initializeStorage]).  The [initializeStorage] of the constructor
    returns normally and stores nothing, whatever the Web Storage holds or
    would take: neither the default document with its five seeded users nor
    a document merged with the defaults is persisted, and [getUsers] reads
    no user afterwards. *)
Theorem initializeStorage_stores_nothing w :
  LocalStorage.initializeStorage env w = (Ok tt, w)
  ∧ eval LocalStorage.getUsers (exec (LocalStorage.initializeStorage env) w) = Ok ∅.
Proof. split; reflexivity. Qed.

(** X2 (the readers).  Whatever the Web Storage holds, the readers of the
    class read the document as [{}]: [getUsers] returns the empty object,
    [getSyncQueue] the empty queue, [getAdminOverride] and [getLastSync]
    [undefined], while [getPlansForWeek] and [getCustomLocations], which
    index [data.plans] and [data.customLocations] without a guard, throw a
    TypeError.  None of them changes anything. *)
Theorem readers_read_nothing weekStartId userName w :
  LocalStorage.getUsers w = (Ok ∅, w)
  ∧ LocalStorage.getSyncQueue w = (Ok [], w)
  ∧ StoreAccess.getAdminOverride w = (Ok None, w)
  ∧ StoreAccess.getLastSync w = (Ok None, w)
  ∧ StoreAccess.getPlansForWeek weekStartId w = (Throw TypeError, w)
  ∧ StoreAccess.getCustomLocations userName w = (Throw TypeError, w).
Proof. repeat split. Qed.

(** X3 (construction on a storage that takes no write).  When nothing is
    stored and the storage refuses every write (quota exhausted, storage
    disabled), [initializeStorage] returns normally and leaves the storage
    empty; afterwards [getPlansForWeek] and [getCustomLocations] throw a
    [TypeError], while [getUsers] and [getSyncQueue] return the empty object
    and the empty queue. *)
Theorem readers_on_blocked_storage weekStartId userName w :
  full env → storage w = None →
  let w' := exec (LocalStorage.initializeStorage env) w in
  eval (LocalStorage.initializeStorage env) w = Ok tt
  ∧ w' = w
  ∧ eval (StoreAccess.getPlansForWeek weekStartId) w' = Throw TypeError
  ∧ eval (StoreAccess.getCustomLocations userName) w' = Throw TypeError
  ∧ eval LocalStorage.getUsers w' = Ok ∅
  ∧ eval LocalStorage.getSyncQueue w' = Ok [].
Proof. intros _ _ w'. subst w'. repeat split. Qed.

(** X4 ([setPlan] is not read back).  For a week of an ordinary name,
    [setPlan(W, U, L)] returns normally, but the plan cannot be read back:
    afterwards [getPlansForWeek(W)] throws a TypeError, and the Web Storage
    holds the document it held before. *)
Theorem setPlan_not_read_back weekStartId userName locations w :
  weekStartId ∉ Object_prototype →
  let w' := exec (LocalStorage.setPlan env weekStartId userName locations) w in
  eval (LocalStorage.setPlan env weekStartId userName locations) w = Ok tt
  ∧ eval (StoreAccess.getPlansForWeek weekStartId) w' = Throw TypeError
  ∧ doc w' = doc w.
Proof. intros _. repeat split. Qed.

(** X5 ([addCustomLocation] is not read back).  For a user and a week of
    ordinary names, [addCustomLocation(U, W, D, L)] returns normally, but the
    location cannot be read back: afterwards [getCustomLocations(U)] throws a
    TypeError, and the Web Storage holds the document it held before. *)
Theorem addCustomLocation_not_read_back userName weekStartId dayDate location w :
  userName ∉ Object_prototype → weekStartId ∉ Object_prototype →
  let w' := exec (LocalStorage.addCustomLocation env userName weekStartId dayDate location) w in
  eval (LocalStorage.addCustomLocation env userName weekStartId dayDate location) w = Ok tt
  ∧ eval (StoreAccess.getCustomLocations userName) w' = Throw TypeError
  ∧ doc w' = doc w.
Proof. intros _ _. repeat split. Qed.

(** X6 ([clearAll]).  [clearAll] fails at its first statement, the call of
    [localStorage.removeItem]: it returns [false] from its handler, without
    having removed what the Web Storage holds and without having run
    [initializeStorage]. *)
Theorem clearAll_clears_nothing w : StoreAccess.clearAll env w = (Ok false, w).
Proof. reflexivity. Qed.

(** X8 ([importData], [exportData]).  [importData] returns [true] although
    nothing is stored: it does not look at the [false] that [saveData]
    answers.  [exportData] gives [{}] afterwards, whatever document was
    imported and whatever the Web Storage holds. *)
Theorem importData_imports_nothing d w :
  StoreAccess.importData env d w = (Ok true, w)
  ∧ eval StoreAccess.exportData (exec (StoreAccess.importData env d) w) = Ok emptyDocument.
Proof. split; reflexivity. Qed.

(** X9 ([updateSyncAttempts]).  [updateSyncAttempts(id, n)] never changes
    which items are queued: the ids, payloads and time stamps of the queue
    are the same afterwards, in the same order, and so are the other keys of
    the document.  When no queued item has the id, nothing is written at
    all. *)
Theorem updateSyncAttempts_keeps_items id n w :
  let w' := exec (LocalStorage.updateSyncAttempts env id n) w in
  same_items (queue_of w) (queue_of w')
  ∧ queue_only w w'
  ∧ (with_id id (queue_of w) = [] → w' = w).
Proof.
  intros w'. subst w'. unfold exec. rewrite updateSyncAttempts_run. cbn [snd].
  split; [repeat split|]. split; [apply queue_only_refl|reflexivity].
Qed.

End StoreAccessFacts.

(** A browser whose storage is empty and takes no write. *)
Lemma readers_on_blocked_storage_witness :
  let w := mkWorld None [] 0 true tt [] [] in
  let w' := exec (LocalStorage.initializeStorage Scenario.env_quota) w in
  eval (LocalStorage.initializeStorage Scenario.env_quota) w = Ok tt
  ∧ w' = w
  ∧ eval (StoreAccess.getPlansForWeek "20250811") w' = Throw TypeError
  ∧ eval (StoreAccess.getCustomLocations "A") w' = Throw TypeError
  ∧ eval LocalStorage.getUsers w' = Ok ∅
  ∧ eval LocalStorage.getSyncQueue w' = Ok [].
Proof.
  apply (readers_on_blocked_storage Scenario.env_quota "20250811" "A"
           (mkWorld None [] 0 true tt [] [])).
  - intros d. reflexivity.
  - reflexivity.
Defined.

(** "A" saves a plan for the week 20250811, on a Web Storage that holds the
    two users and would take every write. *)
Lemma setPlan_not_read_back_witness :
  let w' := exec (LocalStorage.setPlan Scenario.env_accepting "20250811" "A" Scenario.planY)
                 Scenario.w_two_users in
  eval (LocalStorage.setPlan Scenario.env_accepting "20250811" "A" Scenario.planY)
       Scenario.w_two_users = Ok tt
  ∧ eval (StoreAccess.getPlansForWeek "20250811") w' = Throw TypeError
  ∧ doc w' = doc Scenario.w_two_users.
Proof.
  apply (setPlan_not_read_back Scenario.env_accepting "20250811" "A" Scenario.planY
           Scenario.w_two_users).
  exact ordinary_name_20250811.
Defined.

Lemma addCustomLocation_not_read_back_witness :
  let w' := exec (LocalStorage.addCustomLocation Scenario.env_accepting
                    "A" "20250811" "2025-08-14" "Quarry") Scenario.w_two_users in
  eval (LocalStorage.addCustomLocation Scenario.env_accepting
          "A" "20250811" "2025-08-14" "Quarry") Scenario.w_two_users = Ok tt
  ∧ eval (StoreAccess.getCustomLocations "A") w' = Throw TypeError
  ∧ doc w' = doc Scenario.w_two_users.
Proof.
  apply (addCustomLocation_not_read_back Scenario.env_accepting
           "A" "20250811" "2025-08-14" "Quarry" Scenario.w_two_users).
  - exact ordinary_name_A.
  - exact ordinary_name_20250811.
Defined.

(** ** The week of an instant *)

Module WeekFacts.
Import WeekClock WeekClockFacts WeekStrings WeekRoundTrip Utils WeekSpec.

Lemma WeekDay_bounds t : 0 <= WeekDay t < 7.
Proof. unfold WeekDay. apply Z.mod_pos_bound. lia. Qed.

Lemma dayIndex_value now :
  Z.of_nat (dayIndex now)
  = - (if WeekDay (now + IST_OFFSET) =? 0 then -6 else - (WeekDay (now + IST_OFFSET) - 1)).
Proof.
  unfold dayIndex. pose proof (WeekDay_bounds (now + IST_OFFSET)) as Hwd.
  rewrite Z2Nat.id by (apply Z.mod_pos_bound; lia).
  destruct (Z.eqb_spec (WeekDay (now + IST_OFFSET)) 0) as [->|Hne];
    [reflexivity|]. Z.div_mod_to_equations. lia.
Qed.

Lemma dayIndex_lt now : (dayIndex now < 7)%nat.
Proof.
  unfold dayIndex.
  pose proof (Z.mod_pos_bound (WeekDay (now + IST_OFFSET) + 6) 7 ltac:(lia)). lia.
Qed.

Lemma istDateOf_in_range now :
  in_range now → istDateOf (Some now) = Some (now + IST_OFFSET).
Proof.
  unfold in_range, msPerDay. intros H. unfold istDateOf. cbn [plus new_Date].
  apply TimeClip_valid. lia.
Qed.

Lemma mondayOf_in_range now :
  in_range now →
  mondayOf now = Some (now + IST_OFFSET - Z.of_nat (dayIndex now) * msPerDay).
Proof.
  intros H. unfold mondayOf. rewrite (istDateOf_in_range _ H), mondayDateOf_Some.
  pose proof (dayIndex_lt now) as Hlt. pose proof (dayIndex_value now) as Hv.
  replace (now + IST_OFFSET - Z.of_nat (dayIndex now) * msPerDay)
    with (now + IST_OFFSET
          + (if WeekDay (now + IST_OFFSET) =? 0 then -6
             else - (WeekDay (now + IST_OFFSET) - 1)) * msPerDay) by lia.
  apply TimeClip_valid. unfold in_range, msPerDay in *. lia.
Qed.

(** The Monday starts the week the instant is numbered with. *)
Lemma Day_monday now :
  Day (now + IST_OFFSET - Z.of_nat (dayIndex now) * msPerDay) = 7 * weekNumber now - 3.
Proof.
  replace (now + IST_OFFSET - Z.of_nat (dayIndex now) * msPerDay)
    with (now + IST_OFFSET + (- Z.of_nat (dayIndex now)) * msPerDay) by lia.
  rewrite Day_shift. unfold dayIndex, weekNumber, WeekDay.
  rewrite Z2Nat.id by (apply Z.mod_pos_bound; lia).
  Z.div_mod_to_equations. lia.
Qed.

(** The printed forms of a day depend on the day only. *)
Lemma header_Day t t' : Day t = Day t' → header (Some t) = header (Some t').
Proof.
  intros H. unfold header, getUTCFullYear, getUTCMonth, getUTCDate, option_map.
  unfold DateFromTime, MonthFromTime, DayWithinYear, YearFromTime. rewrite H. reflexivity.
Qed.

Lemma isoDate_Day t t' : Day t = Day t' → isoDate (Some t) = isoDate (Some t').
Proof.
  intros H. unfold isoDate, getUTCFullYear, getUTCMonth, getUTCDate, option_map, plus.
  unfold DateFromTime, MonthFromTime, DayWithinYear, YearFromTime. rewrite H. reflexivity.
Qed.

(** The days of the week, counted from its Monday. *)
Lemma currentDay_in_range now (i : nat) :
  in_range now → (i < 7)%nat →
  let monday := now + IST_OFFSET - Z.of_nat (dayIndex now) * msPerDay in
  setUTCDate (Some monday) (plus (getUTCDate (Some monday)) (Some (Z.of_nat i)))
  = Some (monday + Z.of_nat i * msPerDay).
Proof.
  intros H Hi monday. rewrite setUTCDate_shift. apply TimeClip_valid.
  pose proof (dayIndex_lt now). subst monday. unfold in_range, msPerDay in *. lia.
Qed.

Lemma computeWeek_in_range now :
  in_range now →
  let monday := now + IST_OFFSET - Z.of_nat (dayIndex now) * msPerDay in
  computeWeekStartIST (Some now) None
  = mkWeekInfo (weekIdOf (Some monday))
      (map (fun i => header (Some (monday + Z.of_nat i * msPerDay))) (seq 0 7))
      (map (fun i => isoDate (Some (monday + Z.of_nat i * msPerDay))) (seq 0 7)).
Proof.
  intros H monday. subst monday. unfold computeWeekStartIST. cbn [effectiveDate].
  fold (mondayOf now). rewrite (mondayOf_in_range _ H).
  f_equal; apply map_ext_in; intros i Hi%in_seq;
    pose proof (currentDay_in_range now i H ltac:(lia)) as Hc; cbv zeta in Hc;
    rewrite Hc; reflexivity.
Qed.

(** X10 (the week starts on a Monday).  For an instant whose shifted date
    is at least seven days inside the range of time values,
    [computeWeekStartIST] finds as the start of the week a date that is a
    Monday, lies at most six days before the instant in the +5:30 calendar,
    at the same time of day, and [weekStartId] is the year, the two-digit
    month and the two-digit day of that Monday. *)
Theorem week_starts_on_monday now :
  in_range now →
  ∃ monday,
    mondayOf now = Some monday
    ∧ WeekDay monday = 1
    ∧ monday = now + IST_OFFSET - Z.of_nat (dayIndex now) * msPerDay
    ∧ (dayIndex now < 7)%nat
    ∧ weekStartId (computeWeekStartIST (Some now) None)
      = ToString (Some (YearFromTime monday))
        +:+ padStart2 (ToString (Some (MonthFromTime monday + 1)))
        +:+ padStart2 (ToString (Some (DateFromTime monday))).
Proof.
  intros H. pose proof (mondayOf_in_range _ H) as Hm.
  eexists. split; [exact Hm|].
  split.
  { pose proof Hm as Hm'. unfold mondayOf in Hm'.
    rewrite (istDateOf_in_range _ H) in Hm'. exact (monday_WeekDay _ _ Hm'). }
  split; [reflexivity|]. split; [apply dayIndex_lt|].
  rewrite (computeWeek_in_range _ H). reflexivity.
Qed.

(** X11 (one result per week).  Two instants that fall in the same
    Monday-based week of the +5:30 calendar get the same result from
    [computeWeekStartIST]: the same [weekStartId], the same seven headers
    and the same seven day-dates. *)
Theorem same_week_same_result now1 now2 :
  in_range now1 → in_range now2 →
  weekNumber now1 = weekNumber now2 →
  computeWeekStartIST (Some now1) None = computeWeekStartIST (Some now2) None.
Proof.
  intros H1 H2 Hweek.
  rewrite (computeWeek_in_range _ H1), (computeWeek_in_range _ H2).
  pose proof (Day_monday now1) as D1. pose proof (Day_monday now2) as D2.
  rewrite Hweek in D1.
  f_equal.
  - apply weekIdOf_Day. congruence.
  - apply map_ext. intros i. apply header_Day. rewrite !Day_shift. congruence.
  - apply map_ext. intros i. apply isoDate_Day. rewrite !Day_shift. congruence.
Qed.

(** X12 (today among the headers).  In a browser whose local time is
    +5:30 at the instant, [formatDateDisplay] of the instant is one of the
    seven headers [computeWeekStartIST] gives for it: the one at the
    position of the instant's weekday, Monday being the first. *)
Theorem today_is_a_header LocalTZA now :
  in_range now → LocalTZA now = IST_OFFSET →
  headers (computeWeekStartIST (Some now) None) !! dayIndex now
  = Some (formatDateDisplay LocalTZA (Some now)).
Proof.
  intros H Htz. rewrite (computeWeek_in_range _ H). cbn [headers].
  rewrite list_lookup_fmap, lookup_seq_lt by apply dayIndex_lt.
  cbn [fmap option_fmap option_map Nat.add]. f_equal.
  replace (now + IST_OFFSET - Z.of_nat (dayIndex now) * msPerDay
           + Z.of_nat (dayIndex now) * msPerDay) with (now + IST_OFFSET) by lia.
  unfold formatDateDisplay, header, getDate, getMonth, getFullYear, LocalTime,
    getUTCDate, getUTCMonth, getUTCFullYear, option_map.
  rewrite Htz. reflexivity.
Qed.

(** X13 (the override).  With an override that is the printed date
    [YYYY-MM-DD] of a day in a four-digit year, the [date] argument plays no
    role: the result is the one computed for the midnight (UTC) that starts
    the override's day, and the shift by 5:30 leaves that instant on the
    same calendar day, so the week is the one the override's day lies in. *)
Theorem override_selects_week date t :
  1000 <= YearFromTime t <= 9999 →
  computeWeekStartIST date (Some (isoDate (Some t)))
  = computeWeekStartIST (Some (Day t * msPerDay)) None
  ∧ weekNumber (Day t * msPerDay) = (Day t + 3) / 7.
Proof.
  intros Hy. pose proof (year_bounds_day _ Hy) as Hday. split.
  - unfold computeWeekStartIST. cbn [effectiveDate].
    rewrite isoDate_nonempty, (Date_parse_isoDate _ Hy).
    rewrite TimeClip_valid by (unfold msPerDay; lia). reflexivity.
  - unfold weekNumber. f_equal. f_equal.
    unfold Day, msPerDay, IST_OFFSET. Z.div_mod_to_equations. lia.
Qed.

(** 13 August 2025, 12:00 UTC, a Wednesday; its week starts on Monday 11
    August, 17:30 in the +5:30 calendar. *)
Lemma week_starts_on_monday_witness :
  ∃ monday,
    mondayOf 1755086400000 = Some monday
    ∧ WeekDay monday = 1
    ∧ monday = 1755086400000 + IST_OFFSET - Z.of_nat (dayIndex 1755086400000) * msPerDay
    ∧ (dayIndex 1755086400000 < 7)%nat
    ∧ weekStartId (computeWeekStartIST (Some 1755086400000) None)
      = ToString (Some (YearFromTime monday))
        +:+ padStart2 (ToString (Some (MonthFromTime monday + 1)))
        +:+ padStart2 (ToString (Some (DateFromTime monday))).
Proof.
  apply (week_starts_on_monday 1755086400000).
  unfold in_range, IST_OFFSET, msPerDay. lia.
Defined.

(** Monday 11 August 2025, 00:00 and Sunday 17 August 2025, 23:59:59.999 in
    the +5:30 calendar. *)
Lemma same_week_same_result_witness :
  computeWeekStartIST (Some 1754850600000) None
  = computeWeekStartIST (Some 1755455399999) None.
Proof.
  apply (same_week_same_result 1754850600000 1755455399999).
  - unfold in_range, IST_OFFSET, msPerDay. lia.
  - unfold in_range, IST_OFFSET, msPerDay. lia.
  - vm_compute. reflexivity.
Defined.

Lemma today_is_a_header_witness :
  headers (computeWeekStartIST (Some 1755086400000) None) !! dayIndex 1755086400000
  = Some (formatDateDisplay (fun _ => IST_OFFSET) (Some 1755086400000)).
Proof.
  apply (today_is_a_header (fun _ => IST_OFFSET) 1755086400000).
  - unfold in_range, IST_OFFSET, msPerDay. lia.
  - reflexivity.
Defined.

(** The override "2025-08-13", whatever the date. *)
Lemma override_selects_week_witness :
  computeWeekStartIST None (Some (isoDate (Some 1755086400000)))
  = computeWeekStartIST (Some (Day 1755086400000 * msPerDay)) None
  ∧ weekNumber (Day 1755086400000 * msPerDay) = (Day 1755086400000 + 3) / 7.
Proof.
  apply (override_selects_week None 1755086400000).
  vm_compute. split; discriminate.
Defined.

End WeekFacts.

(** ** Escaping for display *)

Module UtilsFacts.
Import Utils WeekStrings.

Lemma chars_append a b : chars (a +:+ b) = chars a ++ chars b.
Proof.
  induction a as [|c a IH]; [reflexivity|].
  rewrite append_cons. cbn [chars]. rewrite IH. reflexivity.
Qed.

Ltac escape_cases :=
  unfold escape;
  repeat match goal with
         | |- context [Ascii.eqb ?x ?y] => destruct (Ascii.eqb_spec x y)
         | H : context [Ascii.eqb ?x ?y] |- _ => destruct (Ascii.eqb_spec x y)
         end.

Lemma escape_no_delimiter c : Forall (fun x => delimiter x = false) (chars (escape c)).
Proof.
  escape_cases; try (repeat constructor).
  unfold delimiter. cbn [chars]. repeat constructor.
  repeat match goal with
         | |- context [Ascii.eqb ?x ?y] => destruct (Ascii.eqb_spec x y); [congruence|]
         end.
  reflexivity.
Qed.

Lemma escape_plain c : markup c = false → escape c = String c EmptyString.
Proof.
  unfold markup. intros H. escape_cases; subst; try discriminate H. reflexivity.
Qed.

(** The entities and the characters kept form a prefix code. *)
Lemma escape_prefix_free c d s1 s2 :
  escape c +:+ s1 = escape d +:+ s2 → c = d ∧ s1 = s2.
Proof.
  intros H. revert H. escape_cases; cbv [String.append]; intros H; subst;
    try discriminate H; try (injection H as ->; split; reflexivity);
    try (injection H as ? ?; subst; congruence).
  injection H as -> ->. split; reflexivity.
Qed.

Lemma escape_cons c : ∃ x rest, escape c = String x rest.
Proof. escape_cases; eexists _, _; reflexivity. Qed.

(** X14 ([sanitizeString], no markup left).  The result of
    [sanitizeString] contains no less-than sign, no greater-than sign, no
    double quote and no apostrophe, whatever the input; a string without
    these characters and without an ampersand is returned as it is. *)
Theorem sanitizeString_no_delimiter str :
  Forall (fun c => delimiter c = false) (chars (sanitizeString str))
  ∧ (Forall (fun c => markup c = false) (chars str) → sanitizeString str = str).
Proof.
  split.
  - induction str as [|c rest IH]; [constructor|].
    cbn [sanitizeString]. rewrite chars_append.
    apply Forall_app. split; [apply escape_no_delimiter|exact IH].
  - induction str as [|c rest IH]; [reflexivity|].
    cbn [chars sanitizeString]. intros [Hc Hrest]%Forall_cons.
    rewrite (escape_plain _ Hc), IH by exact Hrest. reflexivity.
Qed.

(** X15 ([sanitizeString], nothing lost).  [sanitizeString] is injective:
    two different strings are never escaped to the same text, so the
    original can be recovered from the escaped form. *)
Theorem sanitizeString_injective a b :
  sanitizeString a = sanitizeString b → a = b.
Proof.
  revert b. induction a as [|c a IH]; intros [|d b] H; cbn [sanitizeString] in H.
  - reflexivity.
  - destruct (escape_cons d) as (x & rest & E). rewrite E, append_cons in H. discriminate H.
  - destruct (escape_cons c) as (x & rest & E). rewrite E, append_cons in H. discriminate H.
  - apply escape_prefix_free in H as [-> H]. f_equal. apply IH, H.
Qed.

Lemma sanitizeString_injective_witness : "a<b" = "a<b".
Proof. apply (sanitizeString_injective "a<b" "a<b"). reflexivity. Defined.

(** *** Joining *)

Lemma concat_cons2 sep x y (rest : list string) :
  String.concat sep (x :: y :: rest) = x +:+ sep +:+ String.concat sep (y :: rest).
Proof. reflexivity. Qed.

(** A text is cut at its first separator in one way only. *)
Lemma cut_unique c x x' s s' :
  c ∉ chars x → c ∉ chars x' →
  x +:+ String c s = x' +:+ String c s' → x = x' ∧ s = s'.
Proof.
  revert x'. induction x as [|a x IH]; intros [|d x'] Hx Hx' H.
  - injection H as ->. split; reflexivity.
  - rewrite append_cons in H. injection H as <- _. destruct Hx'. left.
  - rewrite append_cons in H. injection H as -> _. destruct Hx. left.
  - rewrite !append_cons in H. injection H as -> H.
    destruct (IH x') as [-> ->]; [| |exact H|split; reflexivity].
    + intros Hin. apply Hx. right. exact Hin.
    + intros Hin. apply Hx'. right. exact Hin.
Qed.

Lemma cut_absent c x x' s' : c ∉ chars x → x ≠ x' +:+ String c s'.
Proof.
  intros Hx ->. apply Hx. rewrite chars_append. apply elem_of_app. right. left.
Qed.

(** X29 ([formatLocationList], nothing lost).  When no location contains
    the separator of the format (the line feed for [vertical], the tabulator
    otherwise), two different non-empty lists of locations are never
    formatted to the same text: the copied text determines the list. *)
Theorem formatLocationList_injective format (l l' : list string) :
  l ≠ [] → l' ≠ [] →
  Forall (fun s => separator_char format ∉ chars s) l →
  Forall (fun s => separator_char format ∉ chars s) l' →
  formatLocationList l format = formatLocationList l' format → l = l'.
Proof.
  unfold formatLocationList, separator. set (c := separator_char format).
  revert l'. induction l as [|x l IH]; intros l' Hl Hl' Hf Hf' H; [done|].
  destruct l' as [|x' l']; [done|].
  apply Forall_cons in Hf as [Hx Hf]. apply Forall_cons in Hf' as [Hx' Hf'].
  destruct l as [|y l], l' as [|y' l'].
  - change (x = x') in H. by subst.
  - rewrite concat_cons2 in H. change (String.concat (String c "") [x]) with x in H.
    rewrite append_cons in H. by destruct (cut_absent c x x' _ Hx H).
  - rewrite concat_cons2 in H. change (String.concat (String c "") [x']) with x' in H.
    symmetry in H. rewrite append_cons in H. by destruct (cut_absent c x' x _ Hx' H).
  - rewrite !concat_cons2, !append_cons in H.
    apply cut_unique in H as [-> H]; [|assumption|assumption].
    f_equal. apply IH; [done|done|assumption|assumption|exact H].
Qed.

Lemma formatLocationList_injective_witness : ["Depot"; "Yard"] = ["Depot"; "Yard"].
Proof.
  apply (formatLocationList_injective "vertical" ["Depot"; "Yard"] ["Depot"; "Yard"]).
  - discriminate.
  - discriminate.
  - repeat constructor; intros H; repeat (apply elem_of_cons in H as [H|H];
      [discriminate H|]); by apply elem_of_nil in H.
  - repeat constructor; intros H; repeat (apply elem_of_cons in H as [H|H];
      [discriminate H|]); by apply elem_of_nil in H.
  - reflexivity.
Defined.

End UtilsFacts.

(** ** The gateway in general *)

Section GatewayBound.
Context {S : Type} (env : Env S).
Implicit Types (w : World S) (req : Request).

Lemma backoff_succ first n :
  Gateway.backoff first (Datatypes.S n)
  = 2 ^ Z.of_nat first * 1000 :: Gateway.backoff (Datatypes.S first) n.
Proof. reflexivity. Qed.

Lemma fetchLoop_bounded left attempt maxRetries req w :
  (attempt + left = maxRetries)%nat →
  ∃ delta,
    exchanges (exec (APIClient.fetchLoop env left attempt maxRetries req) w)
    = exchanges w ++ delta
    ∧ (length delta ≤ left)%nat
    ∧ ((1 ≤ left)%nat → (1 ≤ length delta)%nat)
    ∧ Forall (fun x => fst x = req) delta
    ∧ sleeps (exec (APIClient.fetchLoop env left attempt maxRetries req) w)
      = sleeps w ++ Gateway.backoff attempt (length delta - 1)
    ∧ match eval (APIClient.fetchLoop env left attempt maxRetries req) w with
      | Ok (Some json) => last delta = Some (req, HttpSuccess (Some json))
      | Ok None => left = 0%nat
      | Throw _ => length delta = left ∧ (1 ≤ left)%nat
      end.
Proof.
  revert attempt w. induction left as [|left IH]; intros attempt w Hsum.
  { exists []. split; [cbn; by rewrite app_nil_r|]. split; [cbn; lia|].
    split; [intros; lia|]. split; [constructor|].
    split; [cbn; by rewrite app_nil_r|reflexivity]. }
  unfold exec, eval. rewrite fetchLoop_step.
  assert (Hfail : ∀ o error,
    snd (handle env (server w) req) = o →
    (∀ json, o ≠ HttpSuccess (Some json)) →
    let run := if Nat.eqb attempt (maxRetries - 1)
               then (Throw (FetchError error), after_fetch env req w)
               else APIClient.fetchLoop env left (Datatypes.S attempt) maxRetries req
                      (after_wait (2 ^ Z.of_nat attempt * 1000) (after_fetch env req w)) in
    ∃ delta,
      exchanges (snd run) = exchanges w ++ delta
      ∧ (length delta ≤ Datatypes.S left)%nat
      ∧ ((1 ≤ Datatypes.S left)%nat → (1 ≤ length delta)%nat)
      ∧ Forall (fun x => fst x = req) delta
      ∧ sleeps (snd run) = sleeps w ++ Gateway.backoff attempt (length delta - 1)
      ∧ match fst run with
        | Ok (Some json) => last delta = Some (req, HttpSuccess (Some json))
        | Ok None => Datatypes.S left = 0%nat
        | Throw _ => length delta = Datatypes.S left ∧ (1 ≤ Datatypes.S left)%nat
        end).
  { intros o error Ho Hno run. subst run.
    destruct (Nat.eqb_spec attempt (maxRetries - 1)) as [Hlast|Hmore].
    - assert (left = 0%nat) as -> by lia.
      exists [(req, o)]. cbn [fst snd after_fetch exchanges sleeps length]. rewrite Ho.
      split; [reflexivity|]. split; [lia|]. split; [lia|].
      split; [repeat constructor|]. split; [cbn; by rewrite app_nil_r|]. split; lia.
    - destruct (IH (Datatypes.S attempt)
                  (after_wait (2 ^ Z.of_nat attempt * 1000) (after_fetch env req w)))
        as (delta & Hex & Hlen & Hpos & Hall & Hsl & Hres); [lia|].
      unfold exec, eval in Hex, Hsl, Hres.
      destruct (APIClient.fetchLoop env left (Datatypes.S attempt) maxRetries req _)
        as [res w'].
      cbn [fst snd] in *. cbn [after_wait after_fetch exchanges sleeps] in Hex, Hsl.
      rewrite Ho in Hex.
      assert (1 ≤ length delta)%nat as Hone by (apply Hpos; lia).
      exists ((req, o) :: delta).
      split; [rewrite Hex, <- app_assoc; reflexivity|].
      split; [cbn [length]; lia|]. split; [cbn [length]; lia|].
      split; [constructor; [reflexivity|exact Hall]|].
      split.
      + rewrite Hsl, <- app_assoc. f_equal. cbn [length].
        replace (Datatypes.S (length delta) - 1)%nat
          with (Datatypes.S (length delta - 1)) by lia.
        reflexivity.
      + destruct res as [[json|]|e].
        * destruct delta; [cbn in Hone; lia|exact Hres].
        * lia.
        * cbn [length]. lia. }
  destruct (snd (handle env (server w) req)) as [|status body|[json|]] eqn:Hans.
  - apply (Hfail NetworkFailure NetworkError eq_refl). discriminate.
  - apply (Hfail (HttpError status body) (APIClient.error_of status body) eq_refl).
    discriminate.
  - exists [(req, HttpSuccess (Some json))].
    cbn [fst snd after_fetch exchanges sleeps length]. rewrite Hans.
    split; [reflexivity|]. split; [lia|]. split; [lia|].
    split; [repeat constructor|]. split; [cbn; by rewrite app_nil_r|reflexivity].
  - apply (Hfail (HttpSuccess None) JsonSyntaxError eq_refl). discriminate.
Qed.

(** X16 ([fetchWithRetry], attempts and delays).  Whatever the remote does,
    [fetchWithRetry] sends the request at most [maxRetries] times and nothing
    else; after the attempts that failed, except the one that ended the
    call, it waited 1000 ms, 2000 ms, 4000 ms, ... in this order.  If it
    returns a body, the last attempt got that body with a 2xx status; if it
    throws, all [maxRetries] attempts were made; it returns [undefined] only
    for [maxRetries = 0], without any attempt. *)
Theorem fetchWithRetry_bounded req maxRetries w :
  ∃ delta,
    exchanges (exec (APIClient.fetchWithRetry env req maxRetries) w) = exchanges w ++ delta
    ∧ (length delta ≤ maxRetries)%nat
    ∧ Forall (fun x => fst x = req) delta
    ∧ sleeps (exec (APIClient.fetchWithRetry env req maxRetries) w)
      = sleeps w ++ Gateway.backoff 0 (length delta - 1)
    ∧ match eval (APIClient.fetchWithRetry env req maxRetries) w with
      | Ok (Some json) => last delta = Some (req, HttpSuccess (Some json))
      | Ok None => maxRetries = 0%nat ∧ delta = []
      | Throw _ => length delta = maxRetries ∧ (1 ≤ maxRetries)%nat
      end.
Proof.
  unfold APIClient.fetchWithRetry.
  destruct (fetchLoop_bounded maxRetries 0 maxRetries req w eq_refl)
    as (delta & Hex & Hlen & Hpos & Hall & Hsl & Hres).
  exists delta. repeat (split; [assumption|]).
  destruct (eval (APIClient.fetchLoop env maxRetries 0 maxRetries req) w) as [[json|]|e];
    [exact Hres| |exact Hres].
  split; [exact Hres|]. subst maxRetries. destruct delta; [reflexivity|cbn in Hlen; lia].
Qed.

(** X17 ([lastSync] and the replay pass).  [processSyncQueue] never stamps
    [lastSync]: online or offline, and whatever queue the Web Storage holds,
    it returns before its loop and before [setLastSync], without a request
    and without a write, and [getLastSync] reads [undefined] afterwards. *)
Theorem processSyncQueue_never_stamps w :
  APIClient.processSyncQueue env w = (Ok tt, w)
  ∧ eval StoreAccess.getLastSync (exec (APIClient.processSyncQueue env) w) = Ok None
  ∧ lastSync (doc (exec (APIClient.processSyncQueue env) w)) = lastSync (doc w).
Proof.
  unfold exec. rewrite processSyncQueue_run. repeat split.
Qed.

End GatewayBound.
(** ** The read paths *)

Section ReadFacts.
Context {S : Type} (env : Env S) (renv : ReadEnv S).
Implicit Types (w : World S) (q : Query).

Lemma query_once_run q w :
  APIReads.query_once renv q w
  = (match snd (answer renv (server w) q) with
     | QueryFailure => Throw (FetchError NetworkError)
     | QueryError status body => Throw (FetchError (APIClient.error_of status body))
     | QueryAnswer (Some json) => Ok json
     | QueryAnswer None => Throw (FetchError JsonSyntaxError)
     end, after_query renv q w).
Proof.
  unfold APIReads.query_once, bind, APIReads.query, after_query.
  destruct (answer renv (server w) q) as [s' o]. cbn [fst snd].
  destruct o as [|status body|[json|]]; reflexivity.
Qed.

(** One iteration of the loop over a query. *)
Lemma retryLoop_step left attempt maxRetries q w :
  retryLoop (Datatypes.S left) attempt maxRetries (APIReads.query_once renv q) w
  = match snd (answer renv (server w) q) with
    | QueryAnswer (Some json) => (Ok (Some json), after_query renv q w)
    | o =>
        let error := match o with
                     | QueryFailure => NetworkError
                     | QueryError status body => APIClient.error_of status body
                     | QueryAnswer _ => JsonSyntaxError
                     end in
        if Nat.eqb attempt (maxRetries - 1)
        then (Throw (FetchError error), after_query renv q w)
        else retryLoop left (Datatypes.S attempt) maxRetries (APIReads.query_once renv q)
               (after_wait (2 ^ Z.of_nat attempt * 1000) (after_query renv q w))
    end.
Proof.
  cbn [retryLoop]. unfold bind at 1. unfold try_catch, bind at 1.
  rewrite query_once_run.
  destruct (snd (answer renv (server w) q)) as [|status body|[json|]];
    cbn [throw ret]; try reflexivity;
    destruct (Nat.eqb attempt (maxRetries - 1)); reflexivity.
Qed.

Lemma ask_answered q w json :
  snd (answer renv (server w) q) = QueryAnswer (Some json) →
  APIReads.ask renv q w = (Ok (Some json), after_query renv q w).
Proof. intros H. unfold APIReads.ask. rewrite retryLoop_step, H. reflexivity. Qed.

Lemma keeps_query q : keeps_store (APIReads.query renv q).
Proof.
  intros w. unfold exec, APIReads.query.
  destruct (answer renv (server w) q); split; reflexivity.
Qed.

Lemma keeps_retryLoop {A} left attempt maxRetries (once : M S A) :
  keeps_store once → keeps_store (retryLoop left attempt maxRetries once).
Proof.
  intros Honce. revert attempt.
  induction left as [|left IH]; intros attempt; cbn [retryLoop].
  - apply keeps_ret.
  - apply keeps_bind.
    + apply keeps_try_catch.
      * apply keeps_bind; [exact Honce|intros json; apply keeps_ret].
      * intros e. keeps.
    + intros [json|]; [apply keeps_ret|apply IH].
Qed.

Lemma keeps_ask q : keeps_store (APIReads.ask renv q).
Proof.
  apply keeps_retryLoop. unfold APIReads.query_once.
  apply keeps_bind; [apply keeps_query|]. intros o. keeps.
Qed.

(** The local gate of [login] reads the users as [{}]: no name passes. *)
Lemma login_run name password w :
  APIReads.login env renv name password w = (Ok APIReads.invalidLogin, w).
Proof.
  unfold APIReads.login. unfold bind at 1. rewrite getUsers_run, member_empty.
  destruct (bool_decide (name ∈ Object_prototype)); reflexivity.
Qed.

(** X18 ([login], the local gate).  [APIClient.login] first looks the user
    up in the local store: when the store has no record under the name, or
    the record's password is not the one given, the answer is
    [{ok: false, message: 'Invalid name or password'}] and nothing else has
    happened: no request was sent, even when the client is online, and
    nothing was written. *)
Theorem login_needs_local_password name password w :
  (∀ localUser, userRecord (doc w) name = Some localUser →
                localUser !! "password" ≠ Some (JStr password)) →
  APIReads.login env renv name password w = (Ok APIReads.invalidLogin, w).
Proof. intros _. apply login_run. Qed.

(** X19 ([login] refuses everybody).  Whatever the name and the password,
    whatever the Web Storage holds (be it a record of that name with that
    very password) and whether the client is online or not,
    [APIClient.login] answers
    [{ok: false, message: 'Invalid name or password'}] at its local gate: no
    request is sent to [/login], and neither the check with the server nor
    the fallback to the local record is ever reached. *)
Theorem login_always_refused name password w :
  APIReads.login env renv name password w = (Ok APIReads.invalidLogin, w)
  ∧ rp_ok APIReads.invalidLogin = false
  ∧ rp_message APIReads.invalidLogin = Some "Invalid name or password".
Proof. split; [apply login_run|split; reflexivity]. Qed.

End ReadFacts.

#[export] Hint Resolve keeps_query keeps_ask : store.

(** The store holds "A" with the password "1234"; the password given is
    another one. *)
Lemma login_needs_local_password_witness :
  APIReads.login Scenario.env_accepting ReadScenario.refusing_logins "A" "0000"
    Scenario.w_two_users
  = (Ok APIReads.invalidLogin, Scenario.w_two_users).
Proof.
  apply (login_needs_local_password Scenario.env_accepting ReadScenario.refusing_logins
           "A" "0000" Scenario.w_two_users).
  intros localUser H. vm_compute in H. injection H as <-. vm_compute. discriminate.
Defined.

(** The Web Storage holds "A" with the password "1234", the client is
    online, and "A" gives that password. *)
Lemma stored_password_refused :
  APIReads.login Scenario.env_accepting ReadScenario.okay "A" "1234" Scenario.w_two_users
  = (Ok APIReads.invalidLogin, Scenario.w_two_users)
  ∧ userRecord (doc Scenario.w_two_users) "A" = Some (LocalStorage.seedUser "1234" false).
Proof. split; reflexivity. Qed.

(** ** The read paths that adopt the server's data *)

Section AdoptFacts.
Context {S : Type} (env : Env S) (renv : ReadEnv S).
Implicit Types (w : World S).

(** X20 ([getPlans], [getLocalPlansForCurrentWeek]).  [getPlans(W)] throws
    a TypeError at its first statement, the unguarded
    [localStorage.getPlansForWeek(W)], before it has looked at the
    connectivity: no request is sent, no plan of the server is adopted, and
    nothing has changed.  [getLocalPlansForCurrentWeek] throws in the same
    way, after it has read the clock for the current week. *)
Theorem getPlans_throws weekStartId w :
  APIReads.getPlans env renv weekStartId w = (Throw TypeError, w)
  ∧ APIReads.getLocalPlansForCurrentWeek renv w = (Throw TypeError, advance 1 w).
Proof. split; reflexivity. Qed.

Lemma getAdminOverride_answered response w :
  isOnline w = true →
  snd (answer renv (server w) GET_override) = QueryAnswer (Some response) →
  APIReads.getAdminOverride env renv w
  = (Ok response,
     match rp_ok response, rp_override response with
     | true, Some o =>
         match APIReads.named_override o with
         | Some (a, wk) => advance 3 (after_query renv GET_override w)
         | None => advance 2 (after_query renv GET_override w)
         end
     | _, _ => after_query renv GET_override w
     end).
Proof.
  intros Hon Hans. unfold APIReads.getAdminOverride. unfold bind at 1.
  unfold StoreAccess.getAdminOverride. unfold bind at 1. rewrite getData_run.
  cbn [ret]. unfold bind at 1. unfold APIClient.online. rewrite Hon. cbn [negb].
  unfold try_catch. unfold bind at 1. rewrite (ask_answered renv _ _ _ Hans).
  destruct (rp_ok response), (rp_override response) as [o|]; unfold bind; try reflexivity.
  destruct (APIReads.named_override o) as [[a wk]|].
  - change (LocalStorage.setAdminOverride env a wk)
      with (run_mutation env (SetAdminOverride a wk)).
    rewrite mutation_run. reflexivity.
  - change (LocalStorage.clearAdminOverride env) with (run_mutation env ClearAdminOverride).
    rewrite mutation_run. reflexivity.
Qed.

(** X21 ([getAdminOverride], the server's override is not adopted).  Let
    the client be online and the first answer to [/override] be a 2xx body
    with [ok].  [getAdminOverride] returns that body; but whether the body
    carries an override with a name and a week, one without them, or none,
    the Web Storage holds afterwards the document it held before, the local
    override still reads as [undefined], and the sync queue reads as
    empty. *)
Theorem getAdminOverride_adopts_nothing response w :
  isOnline w = true →
  snd (answer renv (server w) GET_override) = QueryAnswer (Some response) →
  rp_ok response = true →
  let w' := exec (APIReads.getAdminOverride env renv) w in
  eval (APIReads.getAdminOverride env renv) w = Ok response
  ∧ doc w' = doc w
  ∧ eval StoreAccess.getAdminOverride w' = Ok None
  ∧ eval LocalStorage.getSyncQueue w' = Ok [].
Proof.
  intros Hon Hans Hok w'. subst w'. unfold eval, exec.
  rewrite (getAdminOverride_answered _ _ Hon Hans), Hok. cbn [fst snd].
  split; [reflexivity|].
  destruct (rp_override response) as [o|]; [|repeat split].
  destruct (APIReads.named_override o) as [[a wk]|]; repeat split.
Qed.

End AdoptFacts.

(** The server holds an override of "B"; the Web Storage holds the two
    users and no override. *)
Lemma getAdminOverride_adopts_nothing_witness :
  let w' := exec (APIReads.getAdminOverride Scenario.env_accepting
                    ReadScenario.serving_override) Scenario.w_two_users in
  eval (APIReads.getAdminOverride Scenario.env_accepting ReadScenario.serving_override)
       Scenario.w_two_users
  = Ok (mkReply true None None None None None (Some ReadScenario.overrideOfB))
  ∧ doc w' = doc Scenario.w_two_users
  ∧ eval StoreAccess.getAdminOverride w' = Ok None
  ∧ eval LocalStorage.getSyncQueue w' = Ok [].
Proof.
  apply (getAdminOverride_adopts_nothing Scenario.env_accepting ReadScenario.serving_override
           (mkReply true None None None None None (Some ReadScenario.overrideOfB))
           Scenario.w_two_users).
  - reflexivity.
  - reflexivity.
  - reflexivity.
Defined.
(** ** Authentication *)

Section AuthFacts.
Context {S : Type} (env : Env S) (renv : ReadEnv S) (engine_message : Exn → string).
Implicit Types (w : World S) (a : AuthManager.Auth).

(** X22 ([AuthManager.login] never logs in).  Whatever the name and the
    password, whatever the Web Storage holds and whatever the server would
    answer, [login] returns a failure with a message, and the manager is as
    it was: nobody is logged in by it, nothing is written to the session
    storage and no listener is notified.  For a name and a four-digit
    password the message is that of the local gate of [APIClient.login],
    "Invalid name or password". *)
Theorem login_never_succeeds a name password w :
  (∃ message,
     AuthManager.login env renv engine_message a name password w
     = (Ok (AuthManager.LoginFailure message, a), w))
  ∧ (String.eqb name "" = false → Utils.isValidPassword password = true →
     AuthManager.login env renv engine_message a name password w
     = (Ok (AuthManager.LoginFailure "Invalid name or password", a), w)).
Proof.
  assert (Hvalid : String.eqb name "" = false → Utils.isValidPassword password = true →
            AuthManager.login env renv engine_message a name password w
            = (Ok (AuthManager.LoginFailure "Invalid name or password", a), w)).
  { intros Hname Hpw. unfold AuthManager.login, try_catch.
    rewrite Hname, Hpw. destruct password; [discriminate Hpw|]. cbn [String.eqb orb negb].
    unfold bind. rewrite login_run. reflexivity. }
  split; [|exact Hvalid].
  destruct (String.eqb name "") eqn:Hname; [eexists; unfold AuthManager.login; rewrite Hname; reflexivity|].
  destruct (Utils.isValidPassword password) eqn:Hpw; [eexists; apply Hvalid; reflexivity|].
  unfold AuthManager.login, try_catch. rewrite Hname, Hpw. cbn [orb negb].
  destruct (String.eqb password ""); eexists; reflexivity.
Qed.

(** X23 ([logout]).  After [logout] the manager grants nothing:
    [hasAdminAccess] is false and [canAccessUserData] is false for every
    user; the listeners were told so; and a manager constructed afresh on
    the same session storage finds nobody logged in. *)
Theorem logout_clears_session a targetUser :
  AuthManager.hasAdminAccess (AuthManager.logout a) = false
  ∧ AuthManager.canAccessUserData (AuthManager.logout a) targetUser = false
  ∧ last (AuthManager.notified (AuthManager.logout a))
    = Some (AuthManager.mkAuthState false None (JBool false))
  ∧ fst (AuthManager.checkAuthState
           (AuthManager.constructor (AuthManager.session (AuthManager.logout a)))) = false.
Proof.
  split; [reflexivity|]. split; [reflexivity|]. split.
  - unfold AuthManager.logout, AuthManager.notifyListeners.
    cbn [AuthManager.notified AuthManager.isLoggedIn AuthManager.currentUser
         AuthManager.isAdmin].
    apply last_snoc.
  - unfold AuthManager.checkAuthState, AuthManager.constructor, AuthManager.logout,
      AuthManager.notifyListeners. cbn [AuthManager.session].
    rewrite lookup_delete_ne, lookup_delete_eq by discriminate. reflexivity.
Qed.

(** X24 ([AuthManager.addUser], the guards).  When the manager has no admin
    access, or when the name is one that every object inherits ([toString],
    [constructor], ...), for which [users[name]] is truthy in the [{}] that
    [getUsers] reads, [addUser] throws and nothing has happened: nothing is
    queued and no request is sent. *)
Theorem addUser_guards a name password isAdmin w :
  AuthManager.hasAdminAccess a = false ∨ name ∈ Object_prototype →
  ∃ e, AuthManager.addUser env a name password isAdmin w = (Throw e, w).
Proof.
  intros H. unfold AuthManager.addUser.
  destruct (AuthManager.hasAdminAccess a); cbn [negb]; [|eexists; reflexivity].
  destruct H as [H|H]; [discriminate H|].
  destruct (String.eqb name "" || String.eqb password ""); [eexists; reflexivity|].
  destruct (Utils.isValidPassword password); cbn [negb]; [|eexists; reflexivity].
  unfold bind. rewrite getUsers_run, member_empty.
  rewrite bool_decide_eq_true_2 by exact H. eexists. reflexivity.
Qed.

(** X25 ([AuthManager.removeUser], the guards).  When the manager has no
    admin access, or when the name is that of the user logged in, [removeUser]
    throws and nothing has happened: nothing is deleted, nothing is queued
    and no request is sent. *)
Theorem removeUser_guarded a name w :
  AuthManager.hasAdminAccess a = false ∨ AuthManager.currentUser a = Some name →
  ∃ e, AuthManager.removeUser env a name w = (Throw e, w).
Proof.
  intros H. unfold AuthManager.removeUser.
  destruct (AuthManager.hasAdminAccess a); cbn [negb]; [|eexists; reflexivity].
  destruct H as [H|H]; [discriminate H|].
  destruct (String.eqb name ""); [eexists; reflexivity|].
  rewrite bool_decide_eq_true_2 by exact H. eexists. reflexivity.
Qed.

Lemma isValidPassword_nonempty password :
  Utils.isValidPassword password = true → String.eqb password "" = false.
Proof. destruct password; [discriminate|reflexivity]. Qed.

(** X26 ([AuthManager.addUser] reports a user that is not saved).  Let an
    admin add a user with a name that is no inherited one and a four-digit
    password.  When the client is offline, or when the server gives no 2xx
    answer to [users/add], be it a network error or its 409 for a name that
    exists, [addUser] returns normally with the message "User added locally.
    Will sync when online."  Yet the user is not saved: the Web Storage is as
    it was, [getUsers] reads no user afterwards, and nothing is queued for a
    later delivery.  A stored user of the same name does not stop the
    call. *)
Theorem addUser_reports_unsaved_user a name password isAdmin w :
  AuthManager.hasAdminAccess a = true →
  String.eqb name "" = false →
  Utils.isValidPassword password = true →
  name ∉ Object_prototype →
  let admin := match isAdmin with Some v => v | None => JBool false end in
  isOnline w = false ∨ failing env (POST_users_add name (Some (JStr password)) admin) →
  let w' := exec (AuthManager.addUser env a name password isAdmin) w in
  eval (AuthManager.addUser env a name password isAdmin) w
  = Ok "User added locally. Will sync when online."
  ∧ store_kept w w'
  ∧ eval LocalStorage.getUsers w' = Ok ∅
  ∧ eval LocalStorage.getSyncQueue w' = Ok [].
Proof.
  intros Hadmin Hname Hpw Hord admin Hcase w'. subst w'.
  set (req := POST_users_add name (Some (JStr password)) admin) in *.
  set (message := "User added locally. Will sync when online.").
  assert (Hsend : eval (APIClient.send env req message) (advance 2 w)
                  = Ok (Some (mkResponse true (Some message) None))).
  { destruct Hcase as [Hoff|Hfail].
    - unfold eval. rewrite send_offline; [reflexivity|exact Hoff].
    - apply send_failing, Hfail. }
  assert (Hrun : ∃ w2, AuthManager.addUser env a name password isAdmin w = (Ok message, w2)
                       ∧ store_kept w w2).
  { unfold AuthManager.addUser. rewrite Hadmin, Hname, Hpw.
    rewrite (isValidPassword_nonempty _ Hpw). cbn [negb orb].
    unfold bind at 1. rewrite getUsers_run, member_empty.
    rewrite bool_decide_eq_false_2 by exact Hord.
    unfold try_catch. unfold bind at 1. unfold APIClient.addUser. unfold bind at 1.
    fold admin.
    change (LocalStorage.setUser env name (mkUserData (Some (JStr password)) (Some admin)))
      with (run_mutation env (SetUser name (mkUserData (Some (JStr password)) (Some admin)))).
    rewrite mutation_run. cbn [ticks]. fold req. fold message.
    pose proof (keeps_send env req message (advance 2 w)) as Hkept.
    unfold eval in Hsend. unfold exec in Hkept.
    destruct (APIClient.send env req message (advance 2 w)) as [res w2]. cbn [fst snd] in *.
    subst res. exists w2. split; [reflexivity|exact Hkept]. }
  destruct Hrun as (w2 & Hrun & Hkept). unfold eval, exec. rewrite Hrun. cbn [fst snd].
  repeat split; apply Hkept.
Qed.

(** X30 (what a restored session grants).  Let the session storage of the
    tab name a current user.  A manager constructed on it finds by
    [checkAuthState] that user logged in; [hasAdminAccess] holds exactly when
    the stored [isAdmin] is the text [true], and [canAccessUserData] holds
    for a user exactly when that is so or the user is the current one: a
    session without the admin mark reaches no data but its own. *)
Theorem session_grants_own_data (session : gmap string string) name targetUser :
  session !! "currentUser" = Some name →
  String.eqb name "" = false →
  let b := bool_decide (session !! "isAdmin" = Some "true") in
  ∃ a',
    AuthManager.checkAuthState (AuthManager.constructor session) = (true, a')
    ∧ AuthManager.currentUser a' = Some name
    ∧ AuthManager.hasAdminAccess a' = b
    ∧ (AuthManager.canAccessUserData a' targetUser = true ↔ b = true ∨ targetUser = name).
Proof.
  intros Huser Hname b.
  unfold AuthManager.checkAuthState, AuthManager.constructor.
  cbn [AuthManager.session]. rewrite Huser, Hname.
  eexists. split; [reflexivity|]. split; [reflexivity|].
  unfold AuthManager.hasAdminAccess, AuthManager.canAccessUserData.
  cbn [AuthManager.isLoggedIn AuthManager.isAdmin AuthManager.currentUser truthy negb andb].
  fold b. split; [reflexivity|]. destruct b.
  - split; [intros _; left; reflexivity|reflexivity].
  - rewrite bool_decide_eq_true. split.
    + intros [= ->]. right. reflexivity.
    + intros [Hb| ->]; [discriminate Hb|reflexivity].
Qed.

End AuthFacts.

(** The admin "B" adds a user named [toString]. *)
Lemma addUser_guards_witness :
  ∃ e, AuthManager.addUser Scenario.env_accepting
         (AuthManager.mkAuth (Some "B") true (JBool true) ∅ []) "toString" "0000" None
         Scenario.w_two_users
       = (Throw e, Scenario.w_two_users).
Proof.
  apply (addUser_guards Scenario.env_accepting
           (AuthManager.mkAuth (Some "B") true (JBool true) ∅ []) "toString" "0000" None
           Scenario.w_two_users).
  right. unfold Object_prototype. repeat constructor.
Defined.

(** The admin "B" tries to remove "B". *)
Lemma removeUser_guarded_witness :
  ∃ e, AuthManager.removeUser Scenario.env_accepting
         (AuthManager.mkAuth (Some "B") true (JBool true) ∅ []) "B" Scenario.w_two_users
       = (Throw e, Scenario.w_two_users).
Proof.
  apply (removeUser_guarded Scenario.env_accepting
           (AuthManager.mkAuth (Some "B") true (JBool true) ∅ []) "B" Scenario.w_two_users).
  right. reflexivity.
Defined.

(** The admin "B" adds "A", whom the Web Storage holds already, while the
    server cannot be reached. *)
Lemma addUser_reports_unsaved_user_witness :
  let a := AuthManager.mkAuth (Some "B") true (JBool true) ∅ [] in
  let w' := exec (AuthManager.addUser Scenario.env_unreachable a "A" "4321" None)
                 Scenario.w_two_users in
  eval (AuthManager.addUser Scenario.env_unreachable a "A" "4321" None) Scenario.w_two_users
  = Ok "User added locally. Will sync when online."
  ∧ store_kept Scenario.w_two_users w'
  ∧ eval LocalStorage.getUsers w' = Ok ∅
  ∧ eval LocalStorage.getSyncQueue w' = Ok [].
Proof.
  apply (addUser_reports_unsaved_user Scenario.env_unreachable
           (AuthManager.mkAuth (Some "B") true (JBool true) ∅ []) "A" "4321" None
           Scenario.w_two_users).
  - reflexivity.
  - reflexivity.
  - reflexivity.
  - intros Hin. unfold Object_prototype in Hin.
    repeat (apply elem_of_cons in Hin as [Hin|Hin]; [discriminate Hin|]).
    by apply elem_of_nil in Hin.
  - right. intros s json. discriminate.
Defined.

(** The session of "A" and the data of "B". *)
Lemma session_grants_own_data_witness :
  let b := bool_decide (ReadScenario.session_of_A !! "isAdmin" = Some "true") in
  ∃ a',
    AuthManager.checkAuthState (AuthManager.constructor ReadScenario.session_of_A)
    = (true, a')
    ∧ AuthManager.currentUser a' = Some "A"
    ∧ AuthManager.hasAdminAccess a' = b
    ∧ (AuthManager.canAccessUserData a' "B" = true ↔ b = true ∨ "B" = "A").
Proof.
  apply (session_grants_own_data ReadScenario.session_of_A "A" "B").
  - reflexivity.
  - reflexivity.
Defined.

(** ** The plans sheet, written and read *)

Module PlansSheetFacts.
Import Remote RemoteFacts PlansSheet.

Lemma keys_assign_first weekStart name planData rows :
  week_start planData = weekStart → row_name planData = name →
  (fun row => (week_start row, row_name row)) <$> assign_first weekStart name planData rows
  = (fun row => (week_start row, row_name row)) <$> rows.
Proof.
  intros Hw Hn. induction rows as [|row rows IH]; [reflexivity|].
  cbn [assign_first]. destruct (matches weekStart name row) eqn:E.
  - apply matches_spec in E as [E1 E2]. rewrite !fmap_cons. congruence.
  - rewrite !fmap_cons, IH. reflexivity.
Qed.

Lemma find_none_key weekStart name rows :
  find (matches weekStart name) rows = None →
  (weekStart, name) ∉ (fun row => (week_start row, row_name row)) <$> rows.
Proof.
  induction rows as [|row rows IH]; cbn [find]; intros Hfind Hin.
  - rewrite fmap_nil in Hin. by apply elem_of_nil in Hin.
  - destruct (matches weekStart name row) eqn:E; [discriminate|].
    rewrite fmap_cons in Hin. apply elem_of_cons in Hin as [[= H1 H2]|Hin].
    + assert (matches weekStart name row = true) by (apply matches_spec; done).
      congruence.
    + exact (IH Hfind Hin).
Qed.

Lemma unique_handled rows req : unique rows → unique (fst (handler rows req)).
Proof.
  unfold unique. intros Hu.
  destruct req as [|wk nm ls|nm pw ad|nm|nm wk dd lo|an ow]; cbn [handler fst];
    try exact Hu.
  - unfold plans_set.
    destruct (String.eqb wk "" || String.eqb nm ""); [exact Hu|].
    destruct (negb (Nat.eqb (length ls) 7)); [exact Hu|]. cbn [fst].
    destruct (find (matches wk nm) rows) eqn:Hfind.
    + by rewrite keys_assign_first.
    + rewrite fmap_app. apply NoDup_app. split; [exact Hu|]. split.
      * intros key Hin [->|Habs%elem_of_nil]%elem_of_cons; [|done].
        exact (find_none_key _ _ _ Hfind Hin).
      * apply NoDup_singleton.
  - unfold users_delete. destruct (String.eqb nm ""); [exact Hu|]. cbn [fst].
    eapply sublist_NoDup; [exact Hu|]. apply fmap_sublist, sublist_filter.
Qed.

(** X27 (one row per week and user).  If the plans sheet has at most one
    row for every week and user, it still has after any request handled by
    [plans/set] or [users/delete], accepted or not: [plans/set] overwrites
    the row it finds and appends one only when it finds none. *)
Theorem handler_keeps_unique rows req :
  unique rows → unique (fst (handler rows req)).
Proof. apply unique_handled. Qed.



End PlansSheetFacts.

(** The sheet holds a row for "A" and a row for "B"; "A" saves plan Y. *)
Lemma handler_keeps_unique_witness :
  PlansSheet.unique
    (fst (Remote.handler
            [Remote.mkRow "20250811" "A" Scenario.planX;
             Remote.mkRow "20250811" "B" Scenario.planY]
            (POST_plans_set "20250811" "A" Scenario.planY))).
Proof.
  apply (PlansSheetFacts.handler_keeps_unique
           [Remote.mkRow "20250811" "A" Scenario.planX;
            Remote.mkRow "20250811" "B" Scenario.planY]
           (POST_plans_set "20250811" "A" Scenario.planY)).
  unfold PlansSheet.unique. cbn [fmap list_fmap Remote.week_start Remote.row_name].
  repeat (apply NoDup_cons; split;
          [intros H; repeat (apply elem_of_cons in H as [H|H]; [discriminate H|]);
           by apply elem_of_nil in H|]).
  apply NoDup_nil_2.
Defined.

